(** * Weather agent: the request pipeline of [src/index.ts]

    A shallow embedding of the Hono handler for [POST /weather], the
    [fetchWeather] service, the [weatherTool] wrapper and the zod schemas
    they validate with, followed by the properties of the pipeline.

    Conventions.
    - Strings are byte sequences (UTF-8), as [Stdlib.Strings.String].
    - A JavaScript number is kept abstract: the program only moves numbers
      around and prints them inside a template literal, so the type of
      numbers and [Number::toString] are the two operations of the class
      [JsNumber].  Integer-valued numbers are the instance [IntNumber].
    - [await]ed promises are values of [Completion]: they either resolve
      ([Normal]) or reject ([Throw]).
    - The effects of the program (calls of the global [fetch], calls of the
      agent, the tool's [execute] callback, [console.error]) are recorded in a
      trace that is threaded through the monad [M].
    - The reasoning engine and the provider are not part of the program:
      they are the fields [model] and [fetch] of a [World], and every
      general statement holds for all of them.  The listener of SECTION 4
      and SECTION 7 and hono's [logger()] take no part in what a request is
      answered with and are left out. *)

From Stdlib Require Import String Ascii List Bool Arith ZArith Lia DecimalString.
Import ListNotations.
Open Scope string_scope.

(* ===================================================================== *)
(** * JavaScript values                                                    *)
(* ===================================================================== *)

(** [Number::toString], the conversion a template literal applies. *)
Class JsNumber (number : Type) := Number_toString : number -> string.

(** Integer-valued numbers print as their decimal digits. *)
#[export] Instance IntNumber : JsNumber Z :=
  fun z => NilZero.string_of_int (Z.to_int z).

Set Warnings "-register-all".

(** The values [JSON.parse] produces.  An object is the list of its
    properties; reading a property takes the first binding of the key. *)
Inductive json (number : Type) : Type :=
| JNull
| JBool (b : bool)
| JNumber (n : number)
| JString (s : string)
| JArray (items : list (json number))
| JObject (props : list (string * json number)).

Arguments JNull {number}.
Arguments JBool {number} b.
Arguments JNumber {number} n.
Arguments JString {number} s.
Arguments JArray {number} items.
Arguments JObject {number} props.

(** The double quote character, for the texts that contain one. *)
Definition dquote : string := String (ascii_of_nat 34) EmptyString.

(** [a ?? b] *)
Definition nullish {A : Type} (a : option A) (b : A) : A :=
  match a with
  | Some v => v
  | None => b
  end.

Notation "a ?? b" := (nullish a b) (at level 45, left associativity).

Section Values.
Context {number : Type}.

(** A value that may be [undefined]. *)
Definition JsValue : Type := option (json number).

Fixpoint assoc (key : string) (props : list (string * json number)) : JsValue :=
  match props with
  | [] => None
  | (k, v) :: rest => if String.eqb k key then Some v else assoc key rest
  end.

(** [v[key]] for a key that is not an own property of arrays or strings:
    [undefined] on everything but an object that has the key. *)
Definition prop (key : string) (v : JsValue) : JsValue :=
  match v with
  | Some (JObject props) => assoc key props
  | _ => None
  end.

(** [v[i]] on an array. *)
Definition item (i : nat) (v : JsValue) : JsValue :=
  match v with
  | Some (JArray items) => nth_error items i
  | _ => None
  end.

(** zod's [getParsedType], on the values JSON can produce. *)
Definition getParsedType (v : JsValue) : string :=
  match v with
  | None => "undefined"
  | Some JNull => "null"
  | Some (JBool _) => "boolean"
  | Some (JNumber _) => "number"
  | Some (JString _) => "string"
  | Some (JArray _) => "array"
  | Some (JObject _) => "object"
  end.
End Values.

Arguments JsValue number : clear implicits.

(* ===================================================================== *)
(** * Text helpers: [encodeURIComponent], [JSON.stringify] of strings       *)
(* ===================================================================== *)

Definition between (lo hi n : nat) : bool := Nat.leb lo n && Nat.leb n hi.

Fixpoint mem_ascii (c : ascii) (s : string) : bool :=
  match s with
  | EmptyString => false
  | String d rest => Ascii.eqb c d || mem_ascii c rest
  end.

(** The characters [encodeURIComponent] leaves alone:
    [A-Z a-z 0-9 - _ . ! ~ * ' ( )]. *)
Definition uri_unreserved (c : ascii) : bool :=
  let n := nat_of_ascii c in
  between 65 90 n || between 97 122 n || between 48 57 n
  || mem_ascii c "-_.!~*'()".

Definition hex_digit (digits : string) (n : nat) : string :=
  match String.get n digits with
  | Some c => String c EmptyString
  | None => EmptyString
  end.

Definition hex_byte (digits : string) (c : ascii) : string :=
  let n := nat_of_ascii c in
  hex_digit digits (n / 16) ++ hex_digit digits (n mod 16).

(** Every byte of the UTF-8 encoding outside the unreserved set becomes
    [%XX] with upper-case digits. *)
Fixpoint encodeURIComponent (s : string) : string :=
  match s with
  | EmptyString => EmptyString
  | String c rest =>
      (if uri_unreserved c then String c EmptyString
       else "%" ++ hex_byte "0123456789ABCDEF" c)
      ++ encodeURIComponent rest
  end.

(** [JSON.stringify] of one character of a string. *)
Definition json_escape_char (c : ascii) : string :=
  let n := nat_of_ascii c in
  if Nat.eqb n 34 then "\" ++ dquote
  else if Nat.eqb n 92 then "\\"
  else if Nat.eqb n 8 then "\b"
  else if Nat.eqb n 9 then "\t"
  else if Nat.eqb n 10 then "\n"
  else if Nat.eqb n 12 then "\f"
  else if Nat.eqb n 13 then "\r"
  else if Nat.ltb n 32 then "\u00" ++ hex_byte "0123456789abcdef" c
  else String c EmptyString.

Fixpoint json_escape (s : string) : string :=
  match s with
  | EmptyString => EmptyString
  | String c rest => json_escape_char c ++ json_escape rest
  end.

(** [JSON.stringify(s)] for a string [s]. *)
Definition json_quote (s : string) : string :=
  dquote ++ json_escape s ++ dquote.

Fixpoint join (sep : string) (parts : list string) : string :=
  match parts with
  | [] => EmptyString
  | [p] => p
  | p :: rest => p ++ sep ++ join sep rest
  end.

Definition newline : string := String (ascii_of_nat 10) EmptyString.

Definition nat_to_string (n : nat) : string :=
  NilZero.string_of_uint (Nat.to_uint n).

(* ===================================================================== *)
(** * The zod schemas used by the program                                  *)
(* ===================================================================== *)

(** An element of an issue's [path]: a property name or an array index. *)
Inductive PathSeg : Type :=
| PKey (key : string)
| PIndex (i : nat).

(** The values found in an issue object. *)
Inductive IssueValue : Type :=
| IText (s : string)
| IPath (p : list PathSeg)
| IOptions (options : list string).

(** A zod issue is an object; its properties are kept in creation order,
    the order [JSON.stringify] prints them in. *)
Definition ZodIssue : Type := list (string * IssueValue).

(** The outcome of a schema's [_parse]: the typed output, or the issues. *)
Inductive ParseReturn (A : Type) : Type :=
| OK (value : A)
| INVALID (issues : list ZodIssue).

Arguments OK {A} value.
Arguments INVALID {A} issues.

(** Both sides are evaluated and the issues of both are kept, as zod
    does for the properties of an object and the items of an array. *)
Definition merge {A B : Type} (f : ParseReturn (A -> B)) (a : ParseReturn A)
  : ParseReturn B :=
  match f, a with
  | OK g, OK x => OK (g x)
  | OK _, INVALID ia => INVALID ia
  | INVALID i, OK _ => INVALID i
  | INVALID i, INVALID ia => INVALID (i ++ ia)%list
  end.

(** zod's default error map for [invalid_type]. *)
Definition invalid_type_message (expected received : string) : string :=
  if String.eqb received "undefined" then "Required"
  else "Expected " ++ expected ++ ", received " ++ received.

(** [util.joinValues]. *)
Definition joinValues (values : list string) : string :=
  join " | " (map (fun v => "'" ++ v ++ "'") values).

Section Zod.
Context {number : Type}.

(** A schema with output type [A], applied at a path to a value. *)
Definition ZodType (A : Type) : Type :=
  list PathSeg -> JsValue number -> ParseReturn A.

Definition invalid_type (expected : string) (v : JsValue number)
           (path : list PathSeg) : ZodIssue :=
  [ ("code", IText "invalid_type");
    ("expected", IText expected);
    ("received", IText (getParsedType v));
    ("path", IPath path);
    ("message", IText (invalid_type_message expected (getParsedType v))) ].

(** [z.string()] *)
Definition z_string : ZodType string :=
  fun path v =>
    match v with
    | Some (JString s) => OK s
    | _ => INVALID [invalid_type "string" v path]
    end.

(** [z.number()] (a number that comes out of JSON is never NaN). *)
Definition z_number : ZodType number :=
  fun path v =>
    match v with
    | Some (JNumber n) => OK n
    | _ => INVALID [invalid_type "number" v path]
    end.

(** [z.enum([...])]; every option comes with the typed value it stands
    for. *)
Fixpoint enum_lookup {A : Type} (options : list (string * A)) (s : string)
  : option A :=
  match options with
  | [] => None
  | (name, a) :: rest => if String.eqb name s then Some a else enum_lookup rest s
  end.

Definition z_enum {A : Type} (options : list (string * A)) : ZodType A :=
  fun path v =>
    let expected := joinValues (map fst options) in
    match v with
    | Some (JString s) =>
        match enum_lookup options s with
        | Some a => OK a
        | None =>
            INVALID
              [[ ("received", IText s);
                 ("code", IText "invalid_enum_value");
                 ("options", IOptions (map fst options));
                 ("path", IPath path);
                 ("message",
                  IText ("Invalid enum value. Expected " ++ expected
                         ++ ", received '" ++ s ++ "'")) ]]
        end
    | _ =>
        INVALID
          [[ ("expected", IText expected);
             ("received", IText (getParsedType v));
             ("code", IText "invalid_type");
             ("path", IPath path);
             ("message",
              IText (invalid_type_message expected (getParsedType v))) ]]
    end.

(** [z.array(element)]: every item is parsed at [path ++ [i]]. *)
Fixpoint parse_items {A : Type} (element : ZodType A) (path : list PathSeg)
         (i : nat) (items : list (json number)) : ParseReturn (list A) :=
  match items with
  | [] => OK []
  | x :: rest =>
      merge (merge (OK cons) (element (path ++ [PIndex i])%list (Some x)))
            (parse_items element path (S i) rest)
  end.

Definition z_array {A : Type} (element : ZodType A) : ZodType (list A) :=
  fun path v =>
    match v with
    | Some (JArray items) => parse_items element path 0 items
    | _ => INVALID [invalid_type "array" v path]
    end.

(** [z.object({...})].  The shape is built property by property; each
    property is read from the input and parsed at [path ++ [key]], and
    properties the shape does not name are dropped. *)
Definition Shape (A : Type) : Type :=
  list PathSeg -> JsValue number -> ParseReturn A.

Definition shape {A : Type} (build : A) : Shape A :=
  fun _ _ => OK build.

Definition shape_field {A B : Type} (sh : Shape (A -> B))
           (field : string * ZodType A) : Shape B :=
  fun path obj =>
    merge (sh path obj)
          (snd field (path ++ [PKey (fst field)])%list (prop (fst field) obj)).

Definition z_object {A : Type} (sh : Shape A) : ZodType A :=
  fun path v =>
    match v with
    | Some (JObject _) => sh path v
    | _ => INVALID [invalid_type "object" v path]
    end.
End Zod.

Arguments ZodType number A : clear implicits.
Arguments Shape number A : clear implicits.

Notation "sh <&> field" := (shape_field sh field)
  (at level 50, left associativity).

(** ** [ZodError.message]: [JSON.stringify(issues, null, 2)] *)

Definition render_path_seg (seg : PathSeg) : string :=
  match seg with
  | PKey k => json_quote k
  | PIndex i => nat_to_string i
  end.

Definition render_array (indent : string) (items : list string) : string :=
  match items with
  | [] => "[]"
  | _ =>
      "[" ++ newline
      ++ join ("," ++ newline) (map (fun x => indent ++ "  " ++ x) items)
      ++ newline ++ indent ++ "]"
  end.

Definition render_issue_value (indent : string) (v : IssueValue) : string :=
  match v with
  | IText s => json_quote s
  | IPath p => render_array indent (map render_path_seg p)
  | IOptions options => render_array indent (map json_quote options)
  end.

Definition render_issue (issue : ZodIssue) : string :=
  match issue with
  | [] => "{}"
  | _ =>
      "{" ++ newline
      ++ join ("," ++ newline)
           (map (fun kv => "    " ++ json_quote (fst kv) ++ ": "
                           ++ render_issue_value "    " (snd kv)) issue)
      ++ newline ++ "  }"
  end.

Definition ZodError_message (issues : list ZodIssue) : string :=
  render_array "" (map render_issue issues).

(* ===================================================================== *)
(** * SECTION 1: Types and Schemas                                         *)
(* ===================================================================== *)

(** [interface UserContext] *)
Module UserContext.
Record t : Type := mk { userName : string; userRole : string }.
End UserContext.

(** ["celsius" | "fahrenheit"] *)
Inductive TemperatureUnit : Type := celsius | fahrenheit.

Definition TemperatureUnit_eqb (a b : TemperatureUnit) : bool :=
  match a, b with
  | celsius, celsius | fahrenheit, fahrenheit => true
  | _, _ => false
  end.

(** The string a unit is at run time. *)
Definition unit_text (u : TemperatureUnit) : string :=
  match u with
  | celsius => "celsius"
  | fahrenheit => "fahrenheit"
  end.

(** [type DependenciesType = z.infer<typeof depsSchema>] *)
Record DependenciesType : Type := {
  weatherApiKey : string;
  temperatureUnit : TemperatureUnit;
  userName : string;
  userRole : string
}.

(** The output type of [z.object({ location: z.string() })], the schema of
    the request body and of the tool's input. *)
Module Query.
Record t : Type := mk { location : string }.
End Query.

(** The output type of [dataSchema]. *)
Module ProviderData.
Record main_t (number : Type) : Type :=
  mk_main { temp : number; humidity : number }.
Record weather_t : Type := mk_weather { description : string }.
Record t (number : Type) : Type :=
  mk { name : string; main : main_t number; weather : list weather_t }.
Arguments mk_main {number} temp humidity.
Arguments temp {number} _.
Arguments humidity {number} _.
Arguments mk {number} name main weather.
Arguments name {number} _.
Arguments main {number} _.
Arguments weather {number} _.
End ProviderData.

(** The object [fetchWeather] returns. *)
Module WeatherReport.
Record t (number : Type) : Type := mk {
  location : string;
  temperature : number;
  conditions : string;
  humidity : string;
  unit : TemperatureUnit
}.
Arguments mk {number} location temperature conditions humidity unit.
Arguments location {number} _.
Arguments temperature {number} _.
Arguments conditions {number} _.
Arguments humidity {number} _.
Arguments unit {number} _.
End WeatherReport.

(** What the handler sends: [context.json(body, status)]. *)
Inductive ResponseBody : Type :=
| SuccessBody (message : string)   (* { success: true, message } *)
| FailureBody (error : string).    (* { success: false, error } *)

Record HttpResponse : Type := { status : nat; body : ResponseBody }.

(** [context.json(body)] answers 200 unless a status is given. *)
Definition context_json (b : ResponseBody) (st : option nat) : HttpResponse :=
  {| status := st ?? 200; body := b |}.

Section Program.
Context {number : Type} `{JsNumber number}.

(** ** Thrown values and awaited results *)

Inductive Thrown : Type :=
| JsError (name message : string)      (* an instance of Error *)
| ZodError (issues : list ZodIssue)    (* zod's subclass of Error *)
| NonError (value : JsValue number).   (* any other thrown value *)

(** [error instanceof Error] *)
Definition instanceof_Error (e : Thrown) : bool :=
  match e with
  | JsError _ _ | ZodError _ => true
  | NonError _ => false
  end.

(** [error.message], for an instance of Error. *)
Definition message_of (e : Thrown) : string :=
  match e with
  | JsError _ m => m
  | ZodError issues => ZodError_message issues
  | NonError _ => EmptyString
  end.

Inductive Completion (A : Type) : Type :=
| Normal (value : A)
| Throw (error : Thrown).

Arguments Normal {A} value.
Arguments Throw {A} error.

(** [schema.parse(value)] *)
Definition parse {A : Type} (schema : ZodType number A) (value : json number)
  : Completion A :=
  match schema [] (Some value) with
  | OK a => Normal a
  | INVALID issues => Throw (ZodError issues)
  end.

(** ** The trace of effects *)

Inductive Event : Type :=
| EFetch (url : string)
| EGenerate (instructions prompt : string) (dependencies : DependenciesType)
| EExecute (context : Query.t) (dependencies : DependenciesType)
| EConsoleError (error : Thrown).

Definition Trace : Type := list Event.

Definition is_fetch (e : Event) : bool :=
  match e with EFetch _ => true | _ => false end.

Definition is_generate (e : Event) : bool :=
  match e with EGenerate _ _ _ => true | _ => false end.

(** How many times the provider has been called. *)
Definition fetch_count (t : Trace) : nat := length (filter is_fetch t).

Definition generate_count (t : Trace) : nat := length (filter is_generate t).

(** An asynchronous computation: it extends the trace and completes. *)
Definition M (A : Type) : Type := Trace -> Completion A * Trace.

Definition ret {A : Type} (a : A) : M A := fun t => (Normal a, t).

Definition throw {A : Type} (e : Thrown) : M A := fun t => (Throw e, t).

Definition bind {A B : Type} (m : M A) (k : A -> M B) : M B :=
  fun t =>
    match m t with
    | (Normal a, t') => k a t'
    | (Throw e, t') => (Throw e, t')
    end.

(** [try { m } catch (error) { handler }] *)
Definition try_catch {A : Type} (m : M A) (handler : Thrown -> M A) : M A :=
  fun t =>
    match m t with
    | (Normal a, t') => (Normal a, t')
    | (Throw e, t') => handler e t'
    end.

Definition await {A : Type} (c : Completion A) : M A := fun t => (c, t).

Definition emit (e : Event) : M unit := fun t => (Normal tt, (t ++ [e])%list).

(** [console.error("Error:", error)] *)
Definition console_error (e : Thrown) : M unit := emit (EConsoleError e).

Notation "x <- m ;; k" := (bind m (fun x => k))
  (at level 61, m at next level, right associativity).
Notation "m ;;; k" := (bind m (fun _ => k))
  (at level 61, right associativity).

(* ===================================================================== *)
(** * The outside world                                                    *)
(* ===================================================================== *)

(** What the program reads of a [Response] of the global [fetch]. *)
Record Response : Type := {
  ok : bool;
  statusText : string;
  response_json : Completion (json number)   (* await response.json() *)
}.

(** What the program reads of a Hono request. *)
Record Request : Type := {
  header : string -> option string;          (* context.req.header(name) *)
  req_json : Completion (json number)        (* await context.req.json() *)
}.

(** The reasoning engine behind [agent.generate] is a black box.  For the
    instructions and the prompt it is given, it answers with a text, fails
    with a value of its own, or asks for the tool with arguments of its
    choice and goes on from the tool's result, any number of times. *)
Inductive AgentScript : Type :=
| Reply (text : string)
| Abort (error : Thrown)
| Invoke (args : json number)
         (next : Completion (WeatherReport.t number) -> AgentScript).

Record World : Type := {
  (** [process.env.WEATHER_API_KEY] *)
  WEATHER_API_KEY : option string;
  (** the global [fetch]: the provider's answer to the request for a URL,
      given how many requests it has served before *)
  fetch : nat -> string -> Completion Response;
  (** [openai("gpt-4o")], from instructions and prompt *)
  model : string -> string -> AgentScript
}.

(** [await fetch(url)] *)
Definition global_fetch (w : World) (url : string) : M Response :=
  fun t => (fetch w (fetch_count t) url, (t ++ [EFetch url])%list).

(** [depsSchema] *)
Definition depsSchema : ZodType number DependenciesType :=
  z_object
    (shape Build_DependenciesType
     <&> ("weatherApiKey", z_string)
     <&> ("temperatureUnit",
          z_enum [("celsius", celsius); ("fahrenheit", fahrenheit)])
     <&> ("userName", z_string)
     <&> ("userRole", z_string)).

(* ===================================================================== *)
(** * SECTION 2: Weather Service Implementation                            *)
(* ===================================================================== *)

(** [dataSchema], local to [fetchWeather]. *)
Definition dataSchema : ZodType number (ProviderData.t number) :=
  z_object
    (shape ProviderData.mk
     <&> ("name", z_string)
     <&> ("main",
          z_object
            (shape ProviderData.mk_main
             <&> ("temp", z_number)
             <&> ("humidity", z_number)))
     <&> ("weather",
          z_array
            (z_object
               (shape ProviderData.mk_weather
                <&> ("description", z_string))))).

(** The object literal [fetchWeather] returns. *)
Definition report_of (data : ProviderData.t number)
           (temperatureUnit : TemperatureUnit) : WeatherReport.t number :=
  {| WeatherReport.location := ProviderData.name data;
     WeatherReport.temperature := ProviderData.temp (ProviderData.main data);
     WeatherReport.conditions :=
       option_map ProviderData.description
                  (nth_error (ProviderData.weather data) 0)
       ?? "unknown";
     WeatherReport.humidity :=
       Number_toString (ProviderData.humidity (ProviderData.main data)) ++ "%";
     WeatherReport.unit := temperatureUnit |}.

Definition weather_url (location weatherApiKey : string)
           (temperatureUnit : TemperatureUnit) : string :=
  let units :=
    if TemperatureUnit_eqb temperatureUnit celsius then "metric" else "imperial" in
  let loc := encodeURIComponent location in
  "https://api.openweathermap.org/data/2.5/weather?q=" ++ loc
  ++ "&appid=" ++ weatherApiKey ++ "&units=" ++ units.

(** [fetchWeather(location, { weatherApiKey, temperatureUnit })] *)
Definition fetchWeather (w : World) (location : string)
           (weatherApiKey : string) (temperatureUnit : TemperatureUnit)
  : M (WeatherReport.t number) :=
  let url := weather_url location weatherApiKey temperatureUnit in
  response <- global_fetch w url ;;
  if negb (ok response) then
    throw (JsError "Error" ("Error fetching weather: " ++ statusText response))
  else
    raw <- await (response_json response) ;;
    data <- await (parse dataSchema raw) ;;
    ret (report_of data temperatureUnit).

(* ===================================================================== *)
(** * SECTION 3: Mastra Agent Setup                                        *)
(* ===================================================================== *)

(** What [createTool] is given. *)
Record Tool : Type := {
  tool_id : string;
  tool_description : string;
  inputSchema : ZodType number Query.t;
  dependenciesSchema : ZodType number DependenciesType;
  execute : Query.t -> DependenciesType -> M (WeatherReport.t number)
}.

(** [weatherTool] *)
Definition weatherTool (w : World) : Tool :=
  {| tool_id := "getWeatherForecast";
     tool_description := "Get the current weather forecast for a location";
     inputSchema := z_object (shape Query.mk <&> ("location", z_string));
     dependenciesSchema := depsSchema;
     execute := fun context dependencies =>
       fetchWeather w (Query.location context)
                    (weatherApiKey dependencies)
                    (temperatureUnit dependencies) |}.

(** [buildInstructions]: the template literal, cut at its four
    interpolations. *)
Definition buildInstructions (dependencies : DependenciesType) : string :=
    "You are an agent that can fetch weather information. 

<user_context>
  <name>"
    ++ userName dependencies
    ++ "</name>
  <role>"
    ++ userRole dependencies
    ++ "</role>
  <preferences>
    <temperature_unit>"
    ++ unit_text (temperatureUnit dependencies)
    ++ "</temperature_unit>
  </preferences>
</user_context>

<instructions>
  1. Always start with a personalized greeting that includes the user's name and role
  2. Use the getWeatherForecast tool to fetch current weather data
  3. Format your response with temperature in "
    ++ unit_text (temperatureUnit dependencies)
    ++ "
  4. Include all available data: temperature, conditions, and humidity
  5. Keep responses friendly but concise
</instructions>

<examples>
  <example>
    <user_query>What is the weather in New York?</user_query>
    <response>
      Hello Alice (admin)! I'd be happy to check the weather in New York for you.
      
      Current conditions in New York:
      üå°Ô∏è Temperature: 72¬∞F
      üå§Ô∏è Conditions: partly cloudy
      üíß Humidity: 65%
      
      Is there anything else you'd like to know about the weather?
    </response>
  </example>
  
  <example>
    <user_query>How's the weather in Tokyo?</user_query>
    <response>
      Hi John (guest)! Let me get the current weather information for Tokyo.
      
      Current conditions in Tokyo:
      üå°Ô∏è Temperature: 26¬∞C
      ‚òÄÔ∏è Conditions: clear sky
      üíß Humidity: 48%
      
      Would you like weather information for any other location?
    </response>
  </example>
</examples>".

(** What [new Agent] is given, the model apart (it is part of the world). *)
Record Agent : Type := {
  agent_name : string;
  instructions : DependenciesType -> string;
  agent_dependenciesSchema : ZodType number DependenciesType;
  tools : Tool
}.

(** [agent] *)
Definition agent (w : World) : Agent :=
  {| agent_name := "WeatherAgent";
     instructions := buildInstructions;
     agent_dependenciesSchema := depsSchema;
     tools := weatherTool w |}.

(** A tool call of the engine: the arguments are checked against the tool's
    input schema, then [execute] runs with the dependencies of the
    request. *)
Definition invoke_tool (tool : Tool) (args : json number)
           (dependencies : DependenciesType) : M (WeatherReport.t number) :=
  context <- await (parse (inputSchema tool) args) ;;
  emit (EExecute context dependencies) ;;;
  execute tool context dependencies.

(** The engine's script is played against the tool; a failed tool call is
    handed back to the engine, which decides what to do with it. *)
Fixpoint run_script (tool : Tool) (dependencies : DependenciesType)
         (s : AgentScript) : M string :=
  match s with
  | Reply text => ret text
  | Abort error => throw error
  | Invoke args next =>
      fun t =>
        let (result, t') := invoke_tool tool args dependencies t in
        run_script tool dependencies (next result) t'
  end.

(** [(await agent.generate(prompt, { dependencies })).text] *)
Definition generate (w : World) (a : Agent) (prompt : string)
           (dependencies : DependenciesType) : M string :=
  let text := instructions a dependencies in
  emit (EGenerate text prompt dependencies) ;;;
  run_script (tools a) dependencies (model w text prompt).

(* ===================================================================== *)
(** * SECTION 5: Context Middleware                                        *)
(* ===================================================================== *)

Definition context_middleware (req : Request) : UserContext.t :=
  {| UserContext.userName := header req "X-User-Name" ?? "Anonymous";
     UserContext.userRole := header req "X-User-Role" ?? "guest" |}.

(* ===================================================================== *)
(** * SECTION 6: Weather API Endpoint                                      *)
(* ===================================================================== *)

(** [querySchema] *)
Definition querySchema : ZodType number Query.t :=
  z_object (shape Query.mk <&> ("location", z_string)).

(** [!apiKey] is false for a string that is not empty; the key is then
    known to be a string. *)
Definition truthy (apiKey : option string) : option string :=
  match apiKey with
  | Some s => if String.eqb s "" then None else Some s
  | None => None
  end.

(** Lines 186-196 of the handler: the key is read from the environment and
    the dependencies of the request are put together. *)
Definition assemble_dependencies (w : World) (userContext : UserContext.t)
  : Completion DependenciesType :=
  match truthy (WEATHER_API_KEY w) with
  | None => Throw (JsError "Error" "Missing WEATHER_API_KEY environment variable")
  | Some apiKey =>
      Normal {| weatherApiKey := apiKey;
                temperatureUnit := fahrenheit;
                userName := UserContext.userName userContext;
                userRole := UserContext.userRole userContext |}
  end.

(** The body of the [try] block. *)
Definition weather_try (w : World) (body : json number)
           (userContext : UserContext.t) : M HttpResponse :=
  q <- await (parse querySchema body) ;;
  let location := Query.location q in
  dependencies <- await (assemble_dependencies w userContext) ;;
  text <- generate w (agent w) ("What is the weather in " ++ location ++ "?")
                   dependencies ;;
  ret (context_json (SuccessBody text) None).

(** The [catch] block. *)
Definition weather_catch (error : Thrown) : M HttpResponse :=
  console_error error ;;;
  ret (context_json
         (FailureBody
            (if instanceof_Error error then message_of error
             else "Unknown error"))
         (Some 400)).

(** The handler of [app.post("/weather", ...)].  The body is read before
    the [try] block is entered.  A handler that completes with [Throw] has
    let the thrown value through to the framework. *)
Definition post_weather (w : World) (req : Request)
           (userContext : UserContext.t) : M HttpResponse :=
  body <- await (req_json req) ;;
  try_catch (weather_try w body userContext) weather_catch.

(** A request to [POST /weather]: the middleware, then the handler, from an
    empty trace. *)
Definition handle (w : World) (req : Request) : Completion HttpResponse * Trace :=
  post_weather w req (context_middleware req) [].

End Program.

Arguments Thrown number : clear implicits.
Arguments Response number : clear implicits.
Arguments Request number : clear implicits.
Arguments AgentScript number : clear implicits.
Arguments World number : clear implicits.
Arguments Tool number : clear implicits.
Arguments Agent number : clear implicits.
Arguments Completion number A : clear implicits.
Arguments Event number : clear implicits.
Arguments Trace number : clear implicits.
Arguments M number A : clear implicits.
Arguments Normal {number A} value.
Arguments Throw {number A} error.

(* ===================================================================== *)
(** * The provider contract, read off a raw JSON body                      *)
(* ===================================================================== *)

Section Contract.
Context {number : Type}.

Definition is_string (v : JsValue number) : bool :=
  match v with Some (JString _) => true | _ => false end.

Definition is_number (v : JsValue number) : bool :=
  match v with Some (JNumber _) => true | _ => false end.

(** [raw.name], [raw.main.temp], [raw.main.humidity] and
    [raw.weather[0].description], each [undefined] when a step of the path
    is missing. *)
Definition raw_name (raw : json number) : JsValue number :=
  prop "name" (Some raw).

Definition raw_temp (raw : json number) : JsValue number :=
  prop "temp" (prop "main" (Some raw)).

Definition raw_humidity (raw : json number) : JsValue number :=
  prop "humidity" (prop "main" (Some raw)).

Definition raw_description (raw : json number) : JsValue number :=
  prop "description" (item 0 (prop "weather" (Some raw))).

(** The three required fields: [name] is a string, [main.temp] and
    [main.humidity] are numbers. *)
Definition has_required_fields (raw : json number) : bool :=
  is_string (raw_name raw) && is_number (raw_temp raw)
  && is_number (raw_humidity raw).

(** [weather] is an array, and each of its items has a string
    [description]. *)
Definition weather_is_described (raw : json number) : bool :=
  match prop "weather" (Some raw) with
  | Some (JArray items) =>
      forallb (fun x => is_string (prop "description" (Some x))) items
  | _ => false
  end.

(** A body of the shape the provider documents:
    [{name, main: {temp, humidity}, weather: [{description}, ...]}]. *)
Definition well_formed (raw : json number) : bool :=
  has_required_fields raw && weather_is_described raw.

(** The [dependencies] object literal of the handler, as a value. *)
Definition dependencies_object (d : DependenciesType) : json number :=
  JObject
    [ ("weatherApiKey", JString (weatherApiKey d));
      ("temperatureUnit", JString (unit_text (temperatureUnit d)));
      ("userName", JString (userName d));
      ("userRole", JString (userRole d)) ].

(** The item schema of [weather] in [dataSchema]. *)
Definition weather_item : ZodType number ProviderData.weather_t :=
  z_object (shape ProviderData.mk_weather <&> ("description", z_string)).

Definition described_as (x : json number) (w : ProviderData.weather_t) : Prop :=
  prop "description" (Some x) = Some (JString (ProviderData.description w)).

(** The typed payload [d] holds what the raw body [raw] has under the
    paths of the schema. *)
Definition decodes_to (raw : json number) (d : ProviderData.t number) : Prop :=
  raw_name raw = Some (JString (ProviderData.name d))
  /\ raw_temp raw = Some (JNumber (ProviderData.temp (ProviderData.main d)))
  /\ raw_humidity raw
     = Some (JNumber (ProviderData.humidity (ProviderData.main d)))
  /\ exists items,
      prop "weather" (Some raw) = Some (JArray items)
      /\ Forall2 described_as items (ProviderData.weather d).

(** The secret is absent: unset, or set to the empty string. *)
Definition key_absent (key : option string) : Prop :=
  key = None \/ key = Some "".

Definition missing_key_message : string :=
  "Missing WEATHER_API_KEY environment variable".

(** The response of the [catch] block for an error with message [m]. *)
Definition failure (m : string) : HttpResponse :=
  {| status := 400; body := FailureBody m |}.

(** Which events hand a dependency bag over, and with which unit. *)
Definition hands_over_fahrenheit (e : Event number) : Prop :=
  match e with
  | EGenerate _ _ d => temperatureUnit d = fahrenheit
  | EExecute _ d => temperatureUnit d = fahrenheit
  | _ => True
  end.

End Contract.

(* ===================================================================== *)
(** * Concrete requests, provider answers and engines                      *)
(* ===================================================================== *)

Module Scenario.

Definition obj (props : list (string * json Z)) : json Z := JObject props.

(** The provider's answer of scenario A. *)
Definition san_francisco : json Z :=
  obj [ ("name", JString "San Francisco");
        ("main", obj [("temp", JNumber 72%Z); ("humidity", JNumber 65%Z)]);
        ("weather", JArray [obj [("description", JString "partly cloudy")]]) ].

(** The three required fields and no [weather] property at all. *)
Definition no_weather : json Z :=
  obj [ ("name", JString "Paris");
        ("main", obj [("temp", JNumber 20%Z); ("humidity", JNumber 50%Z)]) ].

(** The three required fields and a first weather item without a
    description. *)
Definition undescribed_weather : json Z :=
  obj [ ("name", JString "Paris");
        ("main", obj [("temp", JNumber 20%Z); ("humidity", JNumber 50%Z)]);
        ("weather", JArray [obj []]) ].

(** The three required fields and an empty [weather] array. *)
Definition empty_weather : json Z :=
  obj [ ("name", JString "Paris");
        ("main", obj [("temp", JNumber 20%Z); ("humidity", JNumber 50%Z)]);
        ("weather", JArray []) ].

(** The answer of scenario A as the provider words it, with properties the
    program does not ask for. *)
Definition san_francisco_in_full : json Z :=
  obj [ ("coord", obj [("lon", JNumber (-122)%Z); ("lat", JNumber 38%Z)]);
        ("weather",
         JArray [obj [ ("id", JNumber 802%Z);
                       ("description", JString "partly cloudy") ]]);
        ("main", obj [ ("temp", JNumber 72%Z);
                       ("pressure", JNumber 1016%Z);
                       ("humidity", JNumber 65%Z) ]);
        ("name", JString "San Francisco");
        ("cod", JNumber 200%Z) ].

(** A body that lacks [main.humidity]. *)
Definition no_humidity : json Z :=
  obj [ ("name", JString "Paris");
        ("main", obj [("temp", JNumber 20%Z)]);
        ("weather", JArray []) ].

Definition answer (raw : json Z) : Completion Z (Response Z) :=
  Normal {| ok := true; statusText := "OK"; response_json := Normal raw |}.

(** An engine that calls the tool once for a location, replies with the
    conditions of the report and gives up on the error of a failed call. *)
Definition ask_once (location : string) : AgentScript Z :=
  Invoke (obj [("location", JString location)])
         (fun result =>
            match result with
            | Normal report => Reply (WeatherReport.conditions report)
            | Throw error => Abort error
            end).

Definition world (key : option string) (raw : json Z) (script : AgentScript Z)
  : World Z :=
  {| WEATHER_API_KEY := key;
     fetch := fun _ _ => answer raw;
     model := fun _ _ => script |}.

Definition headers_alice (name : string) : option string :=
  if String.eqb name "X-User-Name" then Some "Alice"
  else if String.eqb name "X-User-Role" then Some "admin"
  else None.

Definition request (body : Completion Z (json Z)) : Request Z :=
  {| header := headers_alice; req_json := body |}.

(** [{"location": "San Francisco"}], [{"location": ""}] and [{}]. *)
Definition body_san_francisco : json Z := obj [("location", JString "San Francisco")].
Definition body_empty_location : json Z := obj [("location", JString "")].
Definition body_no_location : json Z := obj [].

(** What [context.req.json()] rejects with on a body that is not JSON. *)
Definition not_json : Thrown Z :=
  JsError "SyntaxError" "Unexpected token 'o', ... is not valid JSON".

Definition deps_alice : DependenciesType :=
  {| weatherApiKey := "secret";
     temperatureUnit := fahrenheit;
     userName := "Alice";
     userRole := "admin" |}.

End Scenario.

(* ===================================================================== *)
(** * What is observed of URLs, traces and instructions                    *)
(* ===================================================================== *)

(** Every character of [s] satisfies [p]. *)
Fixpoint string_forall (p : ascii -> bool) (s : string) : bool :=
  match s with
  | EmptyString => true
  | String c rest => p c && string_forall p rest
  end.

(** The characters a result of [encodeURIComponent] is made of. *)
Definition uri_output_char (c : ascii) : bool :=
  uri_unreserved c || Ascii.eqb c "%".

(** The value of an upper-case hexadecimal digit. *)
Definition hex_value (c : ascii) : option nat :=
  let n := nat_of_ascii c in
  if between 48 57 n then Some (n - 48)
  else if between 65 70 n then Some (n - 55)
  else None.

(** Reading a percent-encoded text back, byte by byte: the inverse that
    [encodeURIComponent] is compared with (the program never decodes). *)
Fixpoint percent_decode (s : string) : option string :=
  match s with
  | EmptyString => Some EmptyString
  | String c rest =>
      if Ascii.eqb c "%" then
        match rest with
        | String h (String l rest') =>
            match hex_value h, hex_value l, percent_decode rest' with
            | Some vh, Some vl, Some decoded =>
                Some (String (ascii_of_nat (16 * vh + vl)) decoded)
            | _, _, _ => None
            end
        | _ => None
        end
      else
        match percent_decode rest with
        | Some decoded => Some (String c decoded)
        | None => None
        end
  end.


Section Observations.
Context {number : Type}.

Definition is_execute (e : Event number) : bool :=
  match e with EExecute _ _ => true | _ => false end.

Definition execute_count (t : Trace number) : nat :=
  length (filter is_execute t).

(** The events of one run of the tool's [execute]: the call and its one
    request to the provider. *)
Definition call_events (d : DependenciesType) (context : Query.t)
  : Trace number :=
  [ EExecute context d;
    EFetch (weather_url (Query.location context) (weatherApiKey d)
                        (temperatureUnit d)) ].

Definition calls_trace (d : DependenciesType) (contexts : list Query.t)
  : Trace number :=
  flat_map (call_events d) contexts.

(** The dependencies the handler builds for a request when the secret is
    [key]. *)
Definition request_dependencies (key : string) (req : Request number)
  : DependenciesType :=
  {| weatherApiKey := key;
     temperatureUnit := fahrenheit;
     userName := header req "X-User-Name" ?? "Anonymous";
     userRole := header req "X-User-Role" ?? "guest" |}.

(** [raw.weather.map(item => item.description)], when [raw.weather] is an
    array. *)
Definition weather_descriptions (raw : json number)
  : option (list (JsValue number)) :=
  match prop "weather" (Some raw) with
  | Some (JArray items) =>
      Some (map (fun x => prop "description" (Some x)) items)
  | _ => None
  end.

Definition is_console_error (e : Event number) : bool :=
  match e with EConsoleError _ => true | _ => false end.

Definition console_count (t : Trace number) : nat :=
  length (filter is_console_error t).


(** The message the [catch] block answers with. *)
Definition error_text (e : Thrown number) : string :=
  if instanceof_Error e then message_of e else "Unknown error".

End Observations.

(* ===================================================================== *)
(** * Properties                                                           *)
(* ===================================================================== *)

Section Properties.
Context {number : Type} `{JsNumber number}.

(** ** Schemas *)

Lemma merge_OK {A B : Type} (f : ParseReturn (A -> B)) (a : ParseReturn A) (b : B) :
  merge f a = OK b <-> exists g x, f = OK g /\ a = OK x /\ b = g x.
Proof.
  split.
  - destruct f as [g|i], a as [x|ia]; simpl; intros E; try discriminate.
    inversion E; subst. eauto.
  - intros (g & x & -> & -> & ->). reflexivity.
Qed.

Lemma z_string_OK (path : list PathSeg) (v : JsValue number) (s : string) :
  z_string path v = OK s <-> v = Some (JString s).
Proof.
  unfold z_string. split.
  - destruct v as [[]|]; intros E; try discriminate. now inversion E.
  - now intros ->.
Qed.

Lemma z_number_OK (path : list PathSeg) (v : JsValue number) (n : number) :
  z_number path v = OK n <-> v = Some (JNumber n).
Proof.
  unfold z_number. split.
  - destruct v as [[]|]; intros E; try discriminate. now inversion E.
  - now intros ->.
Qed.

Lemma z_object_OK {A : Type} (sh : Shape number A) (path : list PathSeg)
      (v : JsValue number) (a : A) :
  z_object sh path v = OK a <->
  (exists props, v = Some (JObject props)) /\ sh path v = OK a.
Proof.
  unfold z_object. split.
  - destruct v as [[]|]; intros E; try discriminate. split; eauto.
  - now intros [[props ->] E].
Qed.

(** A property of an object shape is accepted exactly when the schema of
    the property accepts what is read under its key. *)
Lemma shape_field_OK {A B : Type} (sh : Shape number (A -> B)) (key : string)
      (t : ZodType number A) (path : list PathSeg) (v : JsValue number) (b : B) :
  (sh <&> (key, t)) path v = OK b <->
  exists g x, sh path v = OK g
              /\ t (path ++ [PKey key])%list (prop key v) = OK x /\ b = g x.
Proof. unfold shape_field. simpl. apply merge_OK. Qed.

Lemma weather_item_OK (path : list PathSeg) (x : json number)
      (w : ProviderData.weather_t) :
  weather_item path (Some x) = OK w <-> described_as x w.
Proof.
  unfold weather_item, described_as.
  rewrite z_object_OK, shape_field_OK. split.
  - intros (_ & g & s & Eg & Es & ->).
    apply z_string_OK in Es. inversion Eg; subst. exact Es.
  - intros E. split.
    + destruct x; simpl in E; try discriminate. eauto.
    + exists ProviderData.mk_weather, (ProviderData.description w).
      split; [reflexivity|]. split; [now apply z_string_OK|now destruct w].
Qed.

Lemma parse_items_OK (items : list (json number)) :
  forall (path : list PathSeg) (i : nat) (l : list ProviderData.weather_t),
    parse_items weather_item path i items = OK l <-> Forall2 described_as items l.
Proof.
  induction items as [|x rest IH]; intros path i l; cbn [parse_items].
  - split.
    + intros E. inversion E. constructor.
    + intros F. inversion F. reflexivity.
  - rewrite merge_OK. split.
    + intros (g & tl & Eg & Etl & ->).
      apply merge_OK in Eg. destruct Eg as (c & w & Ec & Ew & ->).
      inversion Ec; subst. constructor.
      * now apply weather_item_OK in Ew.
      * now apply IH in Etl.
    + intros F. inversion F as [|x' w rest' tl Hw Htl]; subst.
      exists (cons w), tl. split; [|split; [now apply IH|reflexivity]].
      apply merge_OK. exists cons, w.
      split; [reflexivity|]. split; [now apply weather_item_OK|reflexivity].
Qed.

Lemma dataSchema_OK (raw : json number) (d : ProviderData.t number) :
  dataSchema [] (Some raw) = OK d <-> decodes_to raw d.
Proof.
  unfold dataSchema, decodes_to, raw_name, raw_temp, raw_humidity.
  rewrite z_object_OK. split.
  - intros (_ & E).
    apply shape_field_OK in E. destruct E as (g3 & ws & E & Ew & ->).
    apply shape_field_OK in E. destruct E as (g2 & m & E & Em & ->).
    apply shape_field_OK in E. destruct E as (g1 & n & E & En & ->).
    inversion E; subst; clear E.
    apply z_string_OK in En.
    apply z_object_OK in Em. destruct Em as (_ & Em).
    apply shape_field_OK in Em. destruct Em as (h2 & hu & Em & Ehu & ->).
    apply shape_field_OK in Em. destruct Em as (h1 & te & Em & Ete & ->).
    inversion Em; subst; clear Em.
    apply z_number_OK in Ehu. apply z_number_OK in Ete.
    cbn [ProviderData.name ProviderData.main ProviderData.temp
         ProviderData.humidity ProviderData.weather].
    repeat split; try assumption.
    unfold z_array in Ew.
    destruct (prop "weather" (Some raw)) as [[]|]; try discriminate.
    eexists. split; [reflexivity|]. now apply parse_items_OK in Ew.
  - intros (En & Ete & Ehu & items & Ei & F).
    assert (Hraw : exists props, Some raw = Some (JObject props)).
    { destruct raw; simpl in En; try discriminate. eauto. }
    split; [exact Hraw|].
    destruct d as [n [te hu] ws].
    cbn [ProviderData.name ProviderData.main ProviderData.temp
         ProviderData.humidity ProviderData.weather] in *.
    apply shape_field_OK. exists (ProviderData.mk n (ProviderData.mk_main te hu)), ws.
    split; [|split; [|reflexivity]].
    + apply shape_field_OK. exists (ProviderData.mk n), (ProviderData.mk_main te hu).
      split; [|split; [|reflexivity]].
      * apply shape_field_OK. exists ProviderData.mk, n.
        split; [reflexivity|]. split; [now apply z_string_OK|reflexivity].
      * apply z_object_OK. split.
        { destruct (prop "main" (Some raw)) as [[]|]; simpl in Ete;
            try discriminate. eauto. }
        apply shape_field_OK. exists (ProviderData.mk_main te), hu.
        split; [|split; [now apply z_number_OK|reflexivity]].
        apply shape_field_OK. exists ProviderData.mk_main, te.
        split; [reflexivity|]. split; [now apply z_number_OK|reflexivity].
    + unfold z_array. rewrite Ei. now apply parse_items_OK.
Qed.

Lemma parse_dataSchema_Normal (raw : json number) (d : ProviderData.t number) :
  parse dataSchema raw = Normal d <-> decodes_to raw d.
Proof.
  rewrite <- dataSchema_OK. unfold parse.
  destruct (dataSchema [] (Some raw)); split; intros E;
    try discriminate; now inversion E.
Qed.

(** Validation either yields the typed payload or throws a [ZodError]. *)
Lemma parse_cases {A : Type} (schema : ZodType number A) (v : json number) :
  (exists a, parse schema v = Normal a)
  \/ (exists issues, parse schema v = Throw (ZodError issues)).
Proof. unfold parse. destruct (schema [] (Some v)); eauto. Qed.

Lemma described_items (items : list (json number)) :
  forallb (fun x => is_string (prop "description" (Some x))) items = true <->
  exists ws, Forall2 described_as items ws.
Proof.
  induction items as [|x rest IH]; cbn [forallb].
  - split; [eauto using Forall2|reflexivity].
  - rewrite andb_true_iff, IH. unfold described_as. split.
    + intros [Hx [ws F]].
      destruct (prop "description" (Some x)) as [[|b|n|s|items|props]|] eqn:E;
        try discriminate.
      exists (ProviderData.mk_weather s :: ws). constructor; assumption.
    + intros [ws F]. inversion F as [|x' w rest' tl Hw Htl]; subst.
      rewrite Hw. eauto.
Qed.

Lemma well_formed_decodes (raw : json number) :
  well_formed raw = true <-> exists d, decodes_to raw d.
Proof.
  unfold well_formed, has_required_fields, weather_is_described, decodes_to.
  rewrite !andb_true_iff. split.
  - intros [[[Hn Ht] Hh] Hw].
    destruct (raw_name raw) as [[|?|?|n|?|?]|]; try discriminate.
    destruct (raw_temp raw) as [[|?|te|?|?|?]|]; try discriminate.
    destruct (raw_humidity raw) as [[|?|hu|?|?|?]|]; try discriminate.
    destruct (prop "weather" (Some raw)) as [[|?|?|?|items|?]|];
      try discriminate.
    apply described_items in Hw. destruct Hw as [ws F].
    exists (ProviderData.mk n (ProviderData.mk_main te hu) ws).
    simpl. eauto 10.
  - intros (d & -> & -> & -> & items & -> & F).
    repeat split. apply described_items. eauto.
Qed.

Lemma decodes_required (raw : json number) (d : ProviderData.t number) :
  decodes_to raw d -> has_required_fields raw = true.
Proof.
  intros D. assert (W : well_formed raw = true)
    by (apply well_formed_decodes; eauto).
  unfold well_formed in W. now apply andb_true_iff in W.
Qed.

(** [querySchema] accepts a body exactly when its [location] is a
    string. *)
Lemma querySchema_accepts (body : json number) (s : string) :
  prop "location" (Some body) = Some (JString s) ->
  parse querySchema body = Normal (Query.mk s).
Proof.
  intros E. unfold parse, querySchema, z_object, shape_field, shape.
  destruct body; simpl in E; try discriminate.
  simpl. rewrite E. reflexivity.
Qed.

Lemma querySchema_rejects (body : json number) :
  is_string (prop "location" (Some body)) = false ->
  exists issues, issues <> [] /\ parse querySchema body = Throw (ZodError issues).
Proof.
  intros E. unfold parse, querySchema, z_object, shape_field, shape.
  destruct body; try (eexists; split; [|reflexivity]; discriminate).
  simpl in *.
  destruct (assoc "location" props) as [[]|]; try discriminate;
    (eexists; split; [|reflexivity]; discriminate).
Qed.

(** ** [fetchWeather] *)

Lemma fetchWeather_trace (w : World number) (location key : string)
      (u : TemperatureUnit) (t : Trace number) :
  snd (fetchWeather w location key u t)
  = (t ++ [EFetch (weather_url location key u)])%list.
Proof.
  unfold fetchWeather, bind, global_fetch, await, throw, ret.
  destruct (fetch w (fetch_count t) _) as [resp|e]; [|reflexivity].
  destruct (ok resp); [|reflexivity]. simpl.
  destruct (response_json resp) as [raw|e]; [|reflexivity].
  destruct (parse dataSchema raw); reflexivity.
Qed.

(** On a successful answer with a JSON body, the result is decided by the
    validation of the body. *)
Lemma fetchWeather_answered (w : World number) (location key : string)
      (u : TemperatureUnit) (t : Trace number) (resp : Response number)
      (raw : json number) :
  fetch w (fetch_count t) (weather_url location key u) = Normal resp ->
  ok resp = true ->
  response_json resp = Normal raw ->
  fst (fetchWeather w location key u t)
  = match parse dataSchema raw with
    | Normal data => Normal (report_of data u)
    | Throw e => Throw e
    end.
Proof.
  intros Ef Eok Ej.
  unfold fetchWeather, bind, global_fetch, await, throw, ret.
  rewrite Ef, Eok. simpl. rewrite Ej.
  destruct (parse dataSchema raw); reflexivity.
Qed.

(** A report is only ever built from a successful answer whose body passed
    the schema. *)
Lemma fetchWeather_Normal_inv (w : World number) (location key : string)
      (u : TemperatureUnit) (t : Trace number) (r : WeatherReport.t number) :
  fst (fetchWeather w location key u t) = Normal r ->
  exists resp raw data,
    fetch w (fetch_count t) (weather_url location key u) = Normal resp
    /\ ok resp = true
    /\ response_json resp = Normal raw
    /\ parse dataSchema raw = Normal data
    /\ r = report_of data u.
Proof.
  unfold fetchWeather, bind, global_fetch, await, throw, ret.
  destruct (fetch w (fetch_count t) _) as [resp|e]; [|discriminate].
  destruct (ok resp) eqn:Eok; [|discriminate]. simpl.
  destruct (response_json resp) as [raw|e] eqn:Ej; [|discriminate].
  destruct (parse dataSchema raw) as [data|e] eqn:Ep; [|discriminate].
  simpl. intros E. inversion E. eauto 10.
Qed.

(** The result depends on the trace only through the provider's answer. *)
Lemma fetchWeather_answer_only (w : World number) (location key : string)
      (u : TemperatureUnit) (t1 t2 : Trace number) :
  fetch w (fetch_count t1) (weather_url location key u)
  = fetch w (fetch_count t2) (weather_url location key u) ->
  fst (fetchWeather w location key u t1) = fst (fetchWeather w location key u t2).
Proof.
  intros E. unfold fetchWeather, bind, global_fetch, await, throw, ret.
  rewrite E. destruct (fetch w (fetch_count t2) _) as [resp|e]; [|reflexivity].
  destruct (ok resp); [|reflexivity]. simpl.
  destruct (response_json resp) as [raw|e]; [|reflexivity].
  destruct (parse dataSchema raw); reflexivity.
Qed.

(** ** The handler *)

Lemma truthy_None (key : option string) :
  truthy key = None <-> key_absent key.
Proof.
  unfold truthy, key_absent. destruct key as [[|c s]|]; simpl; split;
    intros E; try discriminate; auto; destruct E; discriminate.
Qed.

Lemma depsSchema_accepts (d : DependenciesType) :
  parse (number := number) depsSchema (dependencies_object d) = Normal d.
Proof. destruct d as [key [] name role]; reflexivity. Qed.

(** The [catch] block always answers. *)
Lemma weather_catch_run (e : Thrown number) (t : Trace number) :
  weather_catch e t
  = (Normal (failure (if instanceof_Error e then message_of e
                      else "Unknown error")),
     (t ++ [EConsoleError e])%list).
Proof. reflexivity. Qed.

Lemma handle_parsed (w : World number) (req : Request number)
      (body : json number) :
  req_json req = Normal body ->
  handle w req
  = try_catch (weather_try w body (context_middleware req)) weather_catch [].
Proof.
  intros E. unfold handle, post_weather, bind, await. now rewrite E.
Qed.

(** Once the body has been read, every failure is answered with status 400
    and the failure envelope. *)
Lemma handle_parsed_body (w : World number) (req : Request number)
      (body : json number) :
  req_json req = Normal body ->
  (exists text, fst (handle w req) = Normal {| status := 200; body := SuccessBody text |})
  \/ (exists m, fst (handle w req) = Normal (failure m)).
Proof.
  intros E. rewrite (handle_parsed w req body E). unfold try_catch.
  destruct (weather_try w body (context_middleware req) []) as [[resp|e] t] eqn:Et.
  - left. revert Et. unfold weather_try, bind, await, ret.
    destruct (parse querySchema body); [|discriminate].
    destruct (assemble_dependencies w _); [|discriminate].
    destruct (generate w _ _ _ _) as [[text|e] t']; [|discriminate].
    intros Et. inversion Et. unfold context_json. simpl. eauto.
  - right. cbv beta iota. rewrite weather_catch_run. simpl. eauto.
Qed.

Lemma handle_invalid_query (w : World number) (req : Request number)
      (body : json number) (e : Thrown number) :
  req_json req = Normal body ->
  parse querySchema body = Throw e ->
  handle w req
  = (Normal (failure (if instanceof_Error e then message_of e
                      else "Unknown error")),
     [EConsoleError e]).
Proof.
  intros Eb Ep. rewrite (handle_parsed w req body Eb).
  unfold try_catch, weather_try, bind, await. rewrite Ep. reflexivity.
Qed.

Lemma handle_missing_key (w : World number) (req : Request number)
      (body : json number) (q : Query.t) :
  req_json req = Normal body ->
  parse querySchema body = Normal q ->
  key_absent (WEATHER_API_KEY w) ->
  handle w req
  = (Normal (failure missing_key_message),
     [EConsoleError (JsError "Error" missing_key_message)]).
Proof.
  intros Eb Ep Ek. apply truthy_None in Ek.
  rewrite (handle_parsed w req body Eb).
  unfold try_catch, weather_try, bind, await, assemble_dependencies.
  rewrite Ep, Ek. reflexivity.
Qed.

(** ** Traces *)

Lemma fetch_count_app (t1 t2 : Trace number) :
  fetch_count (t1 ++ t2)%list = fetch_count t1 + fetch_count t2.
Proof. unfold fetch_count. now rewrite filter_app, length_app. Qed.

Lemma invoke_tool_trace (w : World number) (args : json number)
      (d : DependenciesType) (t : Trace number) :
  snd (invoke_tool (weatherTool w) args d t) = t
  \/ exists context url,
      snd (invoke_tool (weatherTool w) args d t)
      = (t ++ [EExecute context d; EFetch url])%list.
Proof.
  unfold invoke_tool, bind, await, emit.
  destruct (parse (inputSchema (weatherTool w)) args) as [context|e]; [|now left].
  right. exists context. eexists.
  cbn [execute weatherTool]. rewrite fetchWeather_trace, <- app_assoc.
  reflexivity.
Qed.

Lemma run_script_hands_over (w : World number) (d : DependenciesType)
      (s : AgentScript number) :
  temperatureUnit d = fahrenheit ->
  forall t : Trace number,
    Forall hands_over_fahrenheit t ->
    Forall hands_over_fahrenheit (snd (run_script (weatherTool w) d s t)).
Proof.
  intros Ed. induction s as [text|e|args next IH]; intros t Ft; simpl; auto.
  pose proof (invoke_tool_trace w args d t) as Ht.
  destruct (invoke_tool (weatherTool w) args d t) as [result t'].
  apply IH. simpl in Ht. destruct Ht as [->|(context & url & ->)]; auto.
  apply Forall_app. split; auto.
  repeat constructor. exact Ed.
Qed.

(** The URL the tool asks the provider for. *)
Lemma execute_weatherTool (w : World number) (context : Query.t)
      (d : DependenciesType) :
  execute (weatherTool w) context d
  = fetchWeather w (Query.location context) (weatherApiKey d) (temperatureUnit d).
Proof. reflexivity. Qed.

(** What the first weather item says about the conditions of a payload
    that passed the schema. *)
Lemma conditions_of_decoded (raw : json number) (data : ProviderData.t number)
      (u : TemperatureUnit) :
  decodes_to raw data ->
  (raw_description raw = None
   /\ WeatherReport.conditions (report_of data u) = "unknown")
  \/ (raw_description raw
      = Some (JString (WeatherReport.conditions (report_of data u)))).
Proof.
  intros (_ & _ & _ & items & Ei & F).
  unfold raw_description, report_of. rewrite Ei.
  cbn [WeatherReport.conditions item].
  destruct F as [|x w0 rest ws Hx _]; [left|right]; simpl; auto.
Qed.

(** ** The claims *)

(** C1, at the input on which the handler departs from it.  When the body
    of the request cannot be read as JSON, [context.req.json()] rejects
    before the [try] block is entered: the handler completes with the
    thrown value itself, no response envelope is built and nothing is
    logged.  (Every later failure is answered, see [handle_parsed_body].) *)
Theorem unreadable_body_escapes_the_handler
        (w : World number) (headers : string -> option string)
        (e : Thrown number) :
  handle w {| header := headers; req_json := Throw e |} = (Throw e, []).
Proof. reflexivity. Qed.

(** C2, amended.  [dataSchema] accepts exactly the bodies that have [name]
    as a string, [main.temp] and [main.humidity] as numbers and [weather]
    as an array whose items all have a string [description]; the array may
    be empty, so a body with the three required fields and an empty
    [weather] array is accepted and mapped to a report, whose conditions
    are "unknown". *)
Theorem dataSchema_accepts_exactly_well_formed
        (raw : json number) (u : TemperatureUnit) :
  ((exists data, parse dataSchema raw = Normal data) <-> well_formed raw = true)
  /\ (has_required_fields raw = true ->
      prop "weather" (Some raw) = Some (JArray []) ->
      exists data,
        parse dataSchema raw = Normal data
        /\ WeatherReport.conditions (report_of data u) = "unknown").
Proof.
  split.
  - rewrite well_formed_decodes.
    split; intros [data E]; exists data; now apply parse_dataSchema_Normal.
  - intros Hreq Hw.
    assert (W : well_formed raw = true).
    { unfold well_formed, weather_is_described. now rewrite Hreq, Hw. }
    apply well_formed_decodes in W. destruct W as [data D].
    exists data. split; [now apply parse_dataSchema_Normal|].
    destruct D as (_ & _ & _ & items & Ei & F).
    rewrite Hw in Ei. inversion Ei; subst items.
    destruct data as [n m ws].
    cbn [ProviderData.weather] in F. inversion F. reflexivity.
Qed.

(** C3, amended.  For every request whose body has no [location], or a
    [location] that is not a string, the handler fails on a [ZodError]
    before the agent and the provider are called: the response is the
    failure envelope with the message of that error, and the trace of the
    request holds nothing but the logged error. *)
Theorem missing_location_is_rejected_before_any_call
        (w : World number) (req : Request number) (body : json number) :
  req_json req = Normal body ->
  is_string (prop "location" (Some body)) = false ->
  exists issues,
    issues <> []
    /\ handle w req
       = (Normal (failure (ZodError_message issues)),
          [EConsoleError (ZodError issues)])
    /\ fetch_count (snd (handle w req)) = 0
    /\ generate_count (snd (handle w req)) = 0.
Proof.
  intros Eb El.
  destruct (querySchema_rejects body El) as (issues & Hne & Ep).
  exists issues. split; [exact Hne|].
  rewrite (handle_invalid_query w req body _ Eb Ep). auto.
Qed.

(** C4, amended.  Putting the dependencies together fails exactly when the
    secret is unset or the empty string, with the error "Missing
    WEATHER_API_KEY environment variable"; that error is the response for
    every request whose body has a string [location] (the body is
    validated first); with a secret that is not empty, the dependencies
    are built and pass [depsSchema]. *)
Theorem assembly_fails_iff_key_absent
        (w : World number) (userContext : UserContext.t) :
  ((exists e, assemble_dependencies w userContext = Throw e)
   <-> key_absent (WEATHER_API_KEY w))
  /\ (key_absent (WEATHER_API_KEY w) ->
      assemble_dependencies w userContext
      = Throw (JsError "Error" missing_key_message)
      /\ forall (req : Request number) (body : json number) (s : string),
          req_json req = Normal body ->
          prop "location" (Some body) = Some (JString s) ->
          handle w req
          = (Normal (failure missing_key_message),
             [EConsoleError (JsError "Error" missing_key_message)]))
  /\ (~ key_absent (WEATHER_API_KEY w) ->
      exists d,
        assemble_dependencies w userContext = Normal d
        /\ parse (number := number) depsSchema (dependencies_object d) = Normal d).
Proof.
  rewrite <- truthy_None. unfold assemble_dependencies.
  destruct (truthy (WEATHER_API_KEY w)) as [key|] eqn:Ek.
  - split; [|split].
    + split; [intros [e E]|intros E]; discriminate.
    + discriminate.
    + intros _. eexists. split; [reflexivity|apply depsSchema_accepts].
  - split; [|split].
    + split; eauto.
    + intros _. split; [reflexivity|]. intros req body s Eb El.
      apply (handle_missing_key w req body (Query.mk s) Eb).
      * now apply querySchema_accepts.
      * now apply truthy_None.
    + intros N. now contradiction N.
Qed.

(** C6.  When the body of the provider's answer lacks [name], [main.temp]
    or [main.humidity], or has one of them with the wrong type, the tool
    never returns a report; on a successful answer it fails on the
    [ZodError] of the schema. *)
Theorem missing_required_field_fails_closed
        (w : World number) (context : Query.t) (d : DependenciesType)
        (t : Trace number) (resp : Response number) (raw : json number) :
  fetch w (fetch_count t)
        (weather_url (Query.location context) (weatherApiKey d)
                     (temperatureUnit d)) = Normal resp ->
  response_json resp = Normal raw ->
  has_required_fields raw = false ->
  (ok resp = true ->
   exists issues,
     fst (execute (weatherTool w) context d t) = Throw (ZodError issues))
  /\ (forall r, fst (execute (weatherTool w) context d t) <> Normal r).
Proof.
  intros Ef Ej Hreq. rewrite execute_weatherTool.
  assert (Hno : forall data, parse dataSchema raw <> Normal data).
  { intros data E. apply parse_dataSchema_Normal, decodes_required in E.
    congruence. }
  split.
  - intros Eok. rewrite (fetchWeather_answered w _ _ _ t resp raw Ef Eok Ej).
    destruct (parse_cases dataSchema raw) as [[data E]|[issues E]].
    + now destruct (Hno data).
    + rewrite E. eauto.
  - intros r E. apply fetchWeather_Normal_inv in E.
    destruct E as (resp' & raw' & data & Ef' & _ & Ej' & Ep & _).
    rewrite Ef in Ef'. inversion Ef'; subst resp'.
    rewrite Ej in Ej'. inversion Ej'; subst raw'.
    now destruct (Hno data).
Qed.

(** C7.  For a location that is not empty and a well-formed answer of the
    provider, the tool returns a report whose unit is the
    [temperatureUnit] of the dependencies it was called with. *)
Theorem report_unit_is_the_dependency_unit
        (w : World number) (context : Query.t) (d : DependenciesType)
        (t : Trace number) (resp : Response number) (raw : json number) :
  Query.location context <> EmptyString ->
  fetch w (fetch_count t)
        (weather_url (Query.location context) (weatherApiKey d)
                     (temperatureUnit d)) = Normal resp ->
  ok resp = true ->
  response_json resp = Normal raw ->
  well_formed raw = true ->
  exists r,
    fst (execute (weatherTool w) context d t) = Normal r
    /\ WeatherReport.unit r = temperatureUnit d.
Proof.
  intros _ Ef Eok Ej W. rewrite execute_weatherTool.
  rewrite (fetchWeather_answered w _ _ _ t resp raw Ef Eok Ej).
  apply well_formed_decodes in W. destruct W as [data D].
  apply parse_dataSchema_Normal in D. rewrite D.
  eexists. split; reflexivity.
Qed.

(** C8.  When the body passes the schema, the report has conditions
    "unknown" if [weather[0].description] is absent and that description
    otherwise; the location, the temperature and the humidity are the
    [name], [main.temp] and [main.humidity] of the body (the humidity
    printed and followed by a percent sign) and the unit is that of the
    dependencies: nothing else is ever substituted. *)
Theorem unknown_is_the_only_default
        (w : World number) (context : Query.t) (d : DependenciesType)
        (t : Trace number) (resp : Response number) (raw : json number)
        (data : ProviderData.t number) :
  fetch w (fetch_count t)
        (weather_url (Query.location context) (weatherApiKey d)
                     (temperatureUnit d)) = Normal resp ->
  ok resp = true ->
  response_json resp = Normal raw ->
  parse dataSchema raw = Normal data ->
  exists r,
    fst (execute (weatherTool w) context d t) = Normal r
    /\ (raw_description raw = None -> WeatherReport.conditions r = "unknown")
    /\ (forall s, raw_description raw = Some (JString s) ->
                  WeatherReport.conditions r = s)
    /\ (raw_description raw = None
        \/ exists s, raw_description raw = Some (JString s))
    /\ raw_name raw = Some (JString (WeatherReport.location r))
    /\ raw_temp raw = Some (JNumber (WeatherReport.temperature r))
    /\ (exists h, raw_humidity raw = Some (JNumber h)
                  /\ WeatherReport.humidity r = Number_toString h ++ "%")
    /\ WeatherReport.unit r = temperatureUnit d.
Proof.
  intros Ef Eok Ej Ep. rewrite execute_weatherTool.
  rewrite (fetchWeather_answered w _ _ _ t resp raw Ef Eok Ej), Ep.
  exists (report_of data (temperatureUnit d)). split; [reflexivity|].
  apply parse_dataSchema_Normal in Ep.
  pose proof (conditions_of_decoded raw data (temperatureUnit d) Ep) as Hc.
  destruct Ep as (En & Ete & Ehu & _).
  repeat split; try assumption.
  - destruct Hc as [[_ Hc]|Hc]; [auto|]. intros E. rewrite E in Hc. discriminate.
  - intros s E. destruct Hc as [[Hc _]|Hc]; rewrite E in Hc;
      [discriminate|now inversion Hc].
  - destruct Hc as [[Hc _]|Hc]; eauto.
  - eexists. split; [exact Ehu|reflexivity].
Qed.

(** C9.  Two calls of the tool in a row with the same input and the same
    dependencies, answered alike by the provider, complete alike; all that
    a call leaves behind is its request in the trace, and the result of a
    call depends on the trace only through the provider's answer. *)
Theorem weatherTool_calls_are_repeatable
        (w : World number) (context : Query.t) (d : DependenciesType)
        (t : Trace number) :
  let url := weather_url (Query.location context) (weatherApiKey d)
                         (temperatureUnit d) in
  let first := execute (weatherTool w) context d t in
  let second := execute (weatherTool w) context d (snd first) in
  fetch w (fetch_count t) url = fetch w (S (fetch_count t)) url ->
  fst first = fst second
  /\ snd first = (t ++ [EFetch url])%list
  /\ snd second = (t ++ [EFetch url; EFetch url])%list.
Proof.
  intros url first second E. subst first second.
  rewrite !execute_weatherTool.
  rewrite !fetchWeather_trace. fold url. rewrite <- app_assoc.
  split; [|split; reflexivity].
  apply fetchWeather_answer_only. fold url.
  rewrite fetch_count_app. cbn [fetch_count filter is_fetch length].
  now rewrite Nat.add_1_r.
Qed.

(** C10.  Whatever the request and the configuration, every dependency bag
    handed to the agent or to the tool's [execute] while the request is
    handled has the unit [fahrenheit]. *)
Theorem dependencies_are_always_fahrenheit
        (w : World number) (req : Request number) :
  Forall hands_over_fahrenheit (snd (handle w req)).
Proof.
  destruct (req_json req) as [body|e] eqn:Eb.
  - rewrite (handle_parsed w req body Eb).
    unfold try_catch, weather_try, bind, await, assemble_dependencies.
    destruct (parse querySchema body) as [q|e]; [|repeat constructor].
    destruct (truthy (WEATHER_API_KEY w)) as [key|]; [|repeat constructor].
    unfold generate, bind, emit. cbn [instructions agent tools app].
    match goal with
    | |- context [run_script ?tool ?d ?s ?t] =>
        pose proof (run_script_hands_over w d s eq_refl t) as Hrun;
        destruct (run_script tool d s t) as [[text|e] t']
    end; cbn [snd] in Hrun |- *.
    + apply Hrun. repeat constructor.
    + rewrite weather_catch_run. cbn [snd].
      apply Forall_app. split; [|repeat constructor].
      apply Hrun. repeat constructor.
  - unfold handle, post_weather, bind, await. rewrite Eb. constructor.
Qed.

End Properties.

(* ===================================================================== *)
(** * The scenarios                                                        *)
(* ===================================================================== *)

Import Scenario.

(** The failing input of C1, run: a body that is not JSON, with the secret
    set and a provider and an engine that would answer. *)
Example not_json_body_escapes :
  handle (world (Some "secret") san_francisco (ask_once "San Francisco"))
         (request (Throw not_json))
  = (Throw not_json, []).
Proof. reflexivity. Qed.

(** C5.  Scenario A: asked for "San Francisco" with the unit [fahrenheit],
    and answered by the provider with
    [{name: "San Francisco", main: {temp: 72, humidity: 65},
      weather: [{description: "partly cloudy"}]}],
    the tool returns
    [{location: "San Francisco", temperature: 72,
      conditions: "partly cloudy", humidity: "65%", unit: "fahrenheit"}]. *)
Theorem scenario_A_report
        (w : World Z) (d : DependenciesType) (t : Trace Z) (st : string) :
  temperatureUnit d = fahrenheit ->
  fetch w (fetch_count t)
        (weather_url "San Francisco" (weatherApiKey d) fahrenheit)
  = Normal {| ok := true; statusText := st;
              response_json := Normal san_francisco |} ->
  fst (execute (weatherTool w) (Query.mk "San Francisco") d t)
  = Normal {| WeatherReport.location := "San Francisco";
              WeatherReport.temperature := 72%Z;
              WeatherReport.conditions := "partly cloudy";
              WeatherReport.humidity := "65%";
              WeatherReport.unit := fahrenheit |}.
Proof.
  intros Eu Ef. rewrite execute_weatherTool. cbn [Query.location].
  rewrite Eu.
  rewrite (fetchWeather_answered w _ _ _ t _ san_francisco Ef eq_refl eq_refl).
  reflexivity.
Qed.

Lemma scenario_A_report_witness :
  fst (execute (weatherTool (world (Some "secret") san_francisco
                                   (ask_once "San Francisco")))
               (Query.mk "San Francisco") deps_alice [])
  = Normal {| WeatherReport.location := "San Francisco";
              WeatherReport.temperature := 72%Z;
              WeatherReport.conditions := "partly cloudy";
              WeatherReport.humidity := "65%";
              WeatherReport.unit := fahrenheit |}.
Proof.
  exact (scenario_A_report
           (world (Some "secret") san_francisco (ask_once "San Francisco"))
           deps_alice [] "OK" eq_refl eq_refl).
Defined.

(** C2, as stated, fails: a body with the three required fields and no
    [weather] property is rejected, and so is one whose first weather item
    has no description. *)
Lemma required_fields_alone_do_not_validate :
  has_required_fields no_weather = true
  /\ parse dataSchema no_weather
     = Throw (ZodError [invalid_type (number := Z) "array" None [PKey "weather"]])
  /\ has_required_fields undescribed_weather = true
  /\ raw_description undescribed_weather = None
  /\ parse dataSchema undescribed_weather
     = Throw (ZodError [invalid_type (number := Z) "string" None
                          [PKey "weather"; PIndex 0; PKey "description"]]).
Proof. repeat split. Qed.

Lemma empty_weather_validates :
  exists data,
    parse dataSchema empty_weather = Normal data
    /\ WeatherReport.conditions (report_of data fahrenheit) = "unknown".
Proof.
  exact (proj2 (dataSchema_accepts_exactly_well_formed empty_weather fahrenheit)
               eq_refl eq_refl).
Defined.

(** C3, as stated, fails: the body [{"location": ""}] passes the schema of
    the request, the agent is called, and the tool asks the provider for
    an empty location. *)
Lemma empty_location_reaches_the_provider :
  handle (world (Some "secret") san_francisco (ask_once ""))
         (request (Normal body_empty_location))
  = (Normal {| status := 200; body := SuccessBody "partly cloudy" |},
     [ EGenerate (buildInstructions deps_alice) "What is the weather in ?"
                 deps_alice;
       EExecute (Query.mk "") deps_alice;
       EFetch "https://api.openweathermap.org/data/2.5/weather?q=&appid=secret&units=imperial" ]).
Proof. reflexivity. Qed.

Lemma no_location_is_rejected :
  exists issues,
    issues <> []
    /\ handle (world (Some "secret") san_francisco (ask_once "Paris"))
              (request (Normal body_no_location))
       = (Normal (failure (ZodError_message issues)),
          [EConsoleError (ZodError issues)])
    /\ fetch_count
         (snd (handle (world (Some "secret") san_francisco (ask_once "Paris"))
                      (request (Normal body_no_location)))) = 0
    /\ generate_count
         (snd (handle (world (Some "secret") san_francisco (ask_once "Paris"))
                      (request (Normal body_no_location)))) = 0.
Proof.
  exact (missing_location_is_rejected_before_any_call
           (world (Some "secret") san_francisco (ask_once "Paris"))
           (request (Normal body_no_location)) body_no_location
           eq_refl eq_refl).
Defined.

(** C4, as stated, fails: without the secret, the body [{}] is answered
    with the message of the schema's error, not with the message about the
    key; and a secret that is set, to the empty string, fails the assembly
    as well. *)
Lemma missing_key_is_not_always_reported :
  handle (world None san_francisco (ask_once "Paris"))
         (request (Normal body_no_location))
  = (Normal (failure (ZodError_message
                        [invalid_type (number := Z) "string" None [PKey "location"]])),
     [EConsoleError (ZodError [invalid_type (number := Z) "string" None [PKey "location"]])])
  /\ ZodError_message [invalid_type (number := Z) "string" None [PKey "location"]]
     <> missing_key_message
  /\ assemble_dependencies (world (Some "") san_francisco (ask_once "Paris"))
                           (UserContext.mk "Alice" "admin")
     = Throw (JsError "Error" missing_key_message).
Proof. repeat split. discriminate. Qed.

Lemma missing_key_is_reported_for_a_valid_body :
  handle (world None san_francisco (ask_once "Paris"))
         (request (Normal body_san_francisco))
  = (Normal (failure missing_key_message),
     [EConsoleError (JsError "Error" missing_key_message)]).
Proof.
  exact (proj2 (proj1 (proj2 (assembly_fails_iff_key_absent
                                (world None san_francisco (ask_once "Paris"))
                                (UserContext.mk "Alice" "admin")))
                      (or_introl eq_refl))
               (request (Normal body_san_francisco)) body_san_francisco
               "San Francisco" eq_refl eq_refl).
Defined.

(** The remaining theorems, each at a provider answer of the scenarios. *)

Lemma no_humidity_fails_closed :
  exists issues,
    fst (execute (weatherTool (world (Some "secret") no_humidity
                                     (ask_once "Paris")))
                 (Query.mk "Paris") deps_alice [])
    = Throw (ZodError issues).
Proof.
  exact (proj1 (missing_required_field_fails_closed
                  (world (Some "secret") no_humidity (ask_once "Paris"))
                  (Query.mk "Paris") deps_alice []
                  {| ok := true; statusText := "OK";
                     response_json := Normal no_humidity |}
                  no_humidity eq_refl eq_refl eq_refl)
               eq_refl).
Defined.

Lemma san_francisco_unit_is_fahrenheit :
  exists r,
    fst (execute (weatherTool (world (Some "secret") san_francisco
                                     (ask_once "San Francisco")))
                 (Query.mk "San Francisco") deps_alice [])
    = Normal r
    /\ WeatherReport.unit r = fahrenheit.
Proof.
  apply (report_unit_is_the_dependency_unit
           (world (Some "secret") san_francisco (ask_once "San Francisco"))
           (Query.mk "San Francisco") deps_alice []
           {| ok := true; statusText := "OK";
              response_json := Normal san_francisco |}
           san_francisco);
    [discriminate | reflexivity | reflexivity | reflexivity | reflexivity].
Defined.

Lemma empty_weather_report_is_unknown :
  exists r,
    fst (execute (weatherTool (world (Some "secret") empty_weather
                                     (ask_once "Paris")))
                 (Query.mk "Paris") deps_alice [])
    = Normal r
    /\ WeatherReport.conditions r = "unknown"
    /\ WeatherReport.location r = "Paris"
    /\ WeatherReport.temperature r = 20%Z
    /\ WeatherReport.humidity r = "50%"
    /\ WeatherReport.unit r = fahrenheit.
Proof.
  destruct (unknown_is_the_only_default
              (world (Some "secret") empty_weather (ask_once "Paris"))
              (Query.mk "Paris") deps_alice []
              {| ok := true; statusText := "OK";
                 response_json := Normal empty_weather |}
              empty_weather
              (ProviderData.mk "Paris" (ProviderData.mk_main 20%Z 50%Z) [])
              eq_refl eq_refl eq_refl eq_refl)
    as (r & Er & Hunknown & _ & _ & Hname & Htemp & (h & Hh & Hhum) & Hunit).
  exists r. split; [exact Er|]. split; [exact (Hunknown eq_refl)|].
  inversion Hname. inversion Htemp. inversion Hh. subst h.
  repeat split; assumption.
Defined.

Lemma two_calls_in_a_row_agree :
  fst (execute (weatherTool (world (Some "secret") san_francisco
                                   (ask_once "San Francisco")))
               (Query.mk "San Francisco") deps_alice [])
  = fst (execute (weatherTool (world (Some "secret") san_francisco
                                     (ask_once "San Francisco")))
                 (Query.mk "San Francisco") deps_alice
                 (snd (execute (weatherTool (world (Some "secret") san_francisco
                                                   (ask_once "San Francisco")))
                               (Query.mk "San Francisco") deps_alice []))).
Proof.
  exact (proj1 (weatherTool_calls_are_repeatable
                  (world (Some "secret") san_francisco (ask_once "San Francisco"))
                  (Query.mk "San Francisco") deps_alice [] eq_refl)).
Defined.

(* ===================================================================== *)
(** * Further properties of the code                                       *)
(* ===================================================================== *)

(** ** The URL of a provider request *)



Lemma string_forall_app (p : ascii -> bool) (a b : string) :
  string_forall p (a ++ b) = string_forall p a && string_forall p b.
Proof.
  induction a as [|c a IH]; simpl; [reflexivity|].
  now rewrite IH, andb_assoc.
Qed.

Lemma string_forall_excludes (p : ascii -> bool) (s : string) (c : ascii) :
  string_forall p s = true -> p c = false -> mem_ascii c s = false.
Proof.
  induction s as [|d s IH]; simpl; intros Hs Hc; [reflexivity|].
  apply andb_true_iff in Hs. destruct Hs as [Hd Hs].
  rewrite (IH Hs Hc), orb_false_r.
  destruct (Ascii.eqb c d) eqn:E; [|reflexivity].
  apply Ascii.eqb_eq in E. congruence.
Qed.

(** What [encodeURIComponent] makes of one byte. *)
Lemma encoded_byte_output (c : ascii) :
  string_forall uri_output_char
    (if uri_unreserved c then String c EmptyString
     else "%" ++ hex_byte "0123456789ABCDEF" c) = true.
Proof. destruct c as [[] [] [] [] [] [] [] []]; reflexivity. Qed.

Lemma encoded_byte_decodes (c : ascii) (rest decoded : string) :
  percent_decode rest = Some decoded ->
  percent_decode
    ((if uri_unreserved c then String c EmptyString
      else "%" ++ hex_byte "0123456789ABCDEF" c) ++ rest)
  = Some (String c decoded).
Proof.
  intros E.
  destruct c as [[] [] [] [] [] [] [] []];
    match goal with
    | |- _ = Some (String ?ch _) =>
        transitivity (match percent_decode rest with
                      | Some d => Some (String ch d)
                      | None => None
                      end);
        [reflexivity | rewrite E; reflexivity]
    end.
Qed.

Lemma encodeURIComponent_alphabet (s : string) :
  string_forall uri_output_char (encodeURIComponent s) = true.
Proof.
  induction s as [|c s IH]; cbn [encodeURIComponent]; [reflexivity|].
  now rewrite string_forall_app, encoded_byte_output, IH.
Qed.

Lemma percent_decode_encoded (s : string) :
  percent_decode (encodeURIComponent s) = Some s.
Proof.
  induction s as [|c s IH]; cbn [encodeURIComponent]; [reflexivity|].
  now apply encoded_byte_decodes.
Qed.

Lemma encodeURIComponent_inj (a b : string) :
  encodeURIComponent a = encodeURIComponent b -> a = b.
Proof.
  intros E. pose proof (percent_decode_encoded a) as Ha.
  rewrite E, percent_decode_encoded in Ha. now inversion Ha.
Qed.


(** X1.  Whatever the location, its encoding in the URL is made of the
    unreserved characters and the percent sign only; none of the characters
    that delimit a query string can come out of it, so a location cannot
    add to or cut short the parameters of the request. *)
Theorem encoded_location_has_no_delimiter (location : string) :
  string_forall uri_output_char (encodeURIComponent location) = true
  /\ string_forall
       (fun c => negb (mem_ascii c (encodeURIComponent location)))
       "&=?#/ +:;,@" = true.
Proof.
  pose proof (encodeURIComponent_alphabet location) as A.
  split; [exact A|].
  cbn [string_forall].
  rewrite !(string_forall_excludes _ _ _ A); reflexivity.
Qed.

(** X2.  [encodeURIComponent] loses nothing: reading the percent-encoded
    text back gives the location, so two different locations are never
    encoded alike. *)
Theorem encodeURIComponent_round_trip (a b : string) :
  percent_decode (encodeURIComponent a) = Some a
  /\ (encodeURIComponent a = encodeURIComponent b <-> a = b).
Proof.
  split; [apply percent_decode_encoded|].
  split; [apply encodeURIComponent_inj|now intros ->].
Qed.


Section Coverage.
Context {number : Type} `{JsNumber number}.

(** ** [fetchWeather] *)



(** X15.  [fetchWeather] returns a report exactly when the request
    resolves with an ok answer whose body is JSON and passes [dataSchema];
    the report is then made of the schema's output and the unit it was
    called with, and of nothing else. *)
Theorem fetchWeather_returns_exactly_when_validated
        (w : World number) (location key : string) (u : TemperatureUnit)
        (t : Trace number) (r : WeatherReport.t number) :
  fst (fetchWeather w location key u t) = Normal r <->
  exists resp raw data,
    fetch w (fetch_count t) (weather_url location key u) = Normal resp
    /\ ok resp = true
    /\ response_json resp = Normal raw
    /\ parse dataSchema raw = Normal data
    /\ r = {| WeatherReport.location := ProviderData.name data;
              WeatherReport.temperature :=
                ProviderData.temp (ProviderData.main data);
              WeatherReport.conditions :=
                match ProviderData.weather data with
                | first :: _ => ProviderData.description first
                | [] => "unknown"
                end;
              WeatherReport.humidity :=
                Number_toString (ProviderData.humidity (ProviderData.main data))
                ++ "%";
              WeatherReport.unit := u |}.
Proof.
  split.
  - intros E. apply fetchWeather_Normal_inv in E.
    destruct E as (resp & raw & data & Ef & Eok & Ej & Ep & ->).
    exists resp, raw, data. repeat split; try assumption.
    unfold report_of. now destruct (ProviderData.weather data).
  - intros (resp & raw & data & Ef & Eok & Ej & Ep & ->).
    rewrite (fetchWeather_answered w _ _ _ t resp raw Ef Eok Ej), Ep.
    unfold report_of. now destruct (ProviderData.weather data).
Qed.

(** ** The trace of a request *)

Lemma querySchema_Normal (body : json number) (q : Query.t) :
  parse querySchema body = Normal q <->
  prop "location" (Some body) = Some (JString (Query.location q)).
Proof.
  split.
  - unfold parse. destruct (querySchema [] (Some body)) as [q'|] eqn:E;
      [|discriminate].
    intros E'. inversion E'; subst q'. clear E'.
    unfold querySchema in E. apply z_object_OK in E. destruct E as [_ E].
    apply shape_field_OK in E. destruct E as (g & s & Eg & Es & ->).
    inversion Eg; subst g. now apply z_string_OK in Es.
  - intros E. rewrite (querySchema_accepts body _ E). now destruct q.
Qed.


Lemma calls_trace_app (d : DependenciesType) (a b : list Query.t) :
  calls_trace (number := number) d (a ++ b)
  = (calls_trace d a ++ calls_trace d b)%list.
Proof. apply flat_map_app. Qed.

Lemma invoke_tool_calls (w : World number) (args : json number)
      (d : DependenciesType) (t : Trace number) :
  exists contexts,
    snd (invoke_tool (weatherTool w) args d t)
    = (t ++ calls_trace d contexts)%list.
Proof.
  unfold invoke_tool, bind, await, emit.
  destruct (parse (inputSchema (weatherTool w)) args) as [context|e].
  - exists [context]. cbn [execute weatherTool].
    rewrite fetchWeather_trace, <- app_assoc. reflexivity.
  - exists []. cbn [snd calls_trace flat_map]. now rewrite app_nil_r.
Qed.

Lemma run_script_calls (w : World number) (d : DependenciesType)
      (s : AgentScript number) :
  forall t : Trace number,
  exists contexts,
    snd (run_script (weatherTool w) d s t) = (t ++ calls_trace d contexts)%list.
Proof.
  induction s as [text|e|args next IH]; intros t; cbn [run_script].
  - exists []. cbn. now rewrite app_nil_r.
  - exists []. cbn. now rewrite app_nil_r.
  - destruct (invoke_tool_calls w args d t) as [c1 E1].
    destruct (invoke_tool (weatherTool w) args d t) as [result t'].
    cbn [snd] in E1. subst t'.
    destruct (IH result (t ++ calls_trace d c1)%list) as [c2 E2].
    exists (c1 ++ c2)%list. now rewrite E2, calls_trace_app, app_assoc.
Qed.

Lemma calls_trace_counts (d : DependenciesType) (contexts : list Query.t) :
  fetch_count (calls_trace (number := number) d contexts) = length contexts
  /\ execute_count (calls_trace (number := number) d contexts) = length contexts
  /\ generate_count (calls_trace (number := number) d contexts) = 0
  /\ console_count (calls_trace (number := number) d contexts) = 0.
Proof.
  unfold fetch_count, execute_count, generate_count, console_count.
  induction contexts as [|c rest (IH1 & IH2 & IH3 & IH4)]; cbn; auto.
Qed.


(** The three shapes of a handled request: the body is not read; the
    request is refused before the agent is called; the agent is called. *)
Lemma handle_shape (w : World number) (req : Request number) :
  (exists e, req_json req = Throw e /\ handle w req = (Throw e, []))
  \/ (exists body e,
        req_json req = Normal body
        /\ (parse querySchema body = Throw e
            \/ (exists q, parse querySchema body = Normal q)
               /\ key_absent (WEATHER_API_KEY w)
               /\ e = JsError "Error" missing_key_message)
        /\ handle w req
           = (Normal (failure (error_text e)), [EConsoleError e]))
  \/ (exists body s k contexts,
        req_json req = Normal body
        /\ prop "location" (Some body) = Some (JString s)
        /\ truthy (WEATHER_API_KEY w) = Some k
        /\ ((exists text,
               handle w req
               = (Normal {| status := 200; body := SuccessBody text |},
                  EGenerate (buildInstructions (request_dependencies k req))
                            ("What is the weather in " ++ s ++ "?")
                            (request_dependencies k req)
                  :: calls_trace (number := number) (request_dependencies k req) contexts))
            \/ (exists e,
                  handle w req
                  = (Normal (failure (error_text e)),
                     (EGenerate (buildInstructions (request_dependencies k req))
                                ("What is the weather in " ++ s ++ "?")
                                (request_dependencies k req)
                      :: calls_trace (number := number) (request_dependencies k req) contexts
                         ++ [EConsoleError e])%list)))).
Proof.
  destruct (req_json req) as [body|e] eqn:Eb.
  2:{ left. exists e. split; [reflexivity|].
      unfold handle, post_weather, bind, await. now rewrite Eb. }
  right.
  destruct (parse querySchema body) as [q|e] eqn:Ep.
  2:{ left. exists body, e. split; [reflexivity|]. split; [now left|].
      apply (handle_invalid_query w req body e Eb Ep). }
  destruct (truthy (WEATHER_API_KEY w)) as [k|] eqn:Ek.
  2:{ left. exists body, (JsError "Error" missing_key_message).
      apply truthy_None in Ek.
      split; [reflexivity|]. split; [right; eauto|].
      apply (handle_missing_key w req body q Eb Ep Ek). }
  right. apply querySchema_Normal in Ep as El.
  rewrite (handle_parsed w req body Eb).
  unfold try_catch, weather_try, bind, await, assemble_dependencies.
  rewrite Ep, Ek. unfold generate, bind, emit.
  cbn [instructions agent tools app].
  change {| weatherApiKey := k; temperatureUnit := fahrenheit;
            userName := UserContext.userName (context_middleware req);
            userRole := UserContext.userRole (context_middleware req) |}
    with (request_dependencies k req).
  match goal with
  | |- context [run_script ?tool ?d ?s ?t] =>
      destruct (run_script_calls w d s t) as [contexts Et];
      destruct (run_script tool d s t) as [[text|e] t']
  end; cbn [snd] in Et; subst t'; exists body, (Query.location q), k, contexts;
    (split; [reflexivity|]); (split; [exact El|]); (split; [reflexivity|]).
  - left. exists text. reflexivity.
  - right. exists e. rewrite weather_catch_run. reflexivity.
Qed.

Lemma truthy_nonempty (k : string) :
  k <> EmptyString -> truthy (Some k) = Some k.
Proof. destruct k; [intros N; now contradiction N|reflexivity]. Qed.

Lemma count_after_generate (g : Event number) (d : DependenciesType)
      (contexts : list Query.t) (tail : Trace number) :
  is_generate g = true ->
  is_fetch g = false -> is_execute g = false -> is_console_error g = false ->
  let t := (g :: calls_trace d contexts ++ tail)%list in
  fetch_count t = length contexts + fetch_count tail
  /\ execute_count t = length contexts + execute_count tail
  /\ generate_count t = 1 + generate_count tail
  /\ console_count t = console_count tail.
Proof.
  intros G F E C t. subst t.
  destruct (calls_trace_counts d contexts) as (C1 & C2 & C3 & C4).
  unfold fetch_count, execute_count, generate_count, console_count in *.
  cbn [filter]. rewrite G, F, E, C. cbn [length].
  rewrite !filter_app, !length_app, C1, C2, C3, C4. auto.
Qed.

(** ** The handler *)

(** X6.  Once the body of the request has been read as JSON, the handler
    never rejects.  It answers 200 with the success envelope and logs no
    error, or it answers 400 with the failure envelope, whose error is the
    message of what was thrown ("Unknown error" for a thrown value that is
    not an Error), and logs that one error as its last effect. *)
Theorem read_body_is_always_answered
        (w : World number) (req : Request number) (body : json number) :
  req_json req = Normal body ->
  (exists text t,
      handle w req = (Normal {| status := 200; body := SuccessBody text |}, t)
      /\ console_count t = 0)
  \/ (exists e t,
        handle w req
        = (Normal (failure (error_text e)), (t ++ [EConsoleError e])%list)
        /\ console_count t = 0).
Proof.
  intros Eb.
  destruct (handle_shape w req)
    as [(e & E & _)|[(b & e & _ & _ & E)|(b & s & k & cs & _ & _ & _ & [[text E]|[e E]])]].
  - congruence.
  - right. exists e, []. split; [exact E|reflexivity].
  - left. eexists. eexists. split; [exact E|].
    match goal with
    | |- console_count (?g :: ?c) = 0 =>
        pose proof (count_after_generate g (request_dependencies k req) cs []
                      eq_refl eq_refl eq_refl eq_refl) as (_ & _ & _ & C)
    end.
    cbn zeta in C. rewrite app_nil_r in C. exact C.
  - right.
    match type of E with
    | _ = (_, (?g :: ?c ++ _)%list) => exists e, (g :: c)
    end.
    split; [exact E|].
    match goal with
    | |- console_count (?g :: ?c) = 0 =>
        pose proof (count_after_generate g (request_dependencies k req) cs []
                      eq_refl eq_refl eq_refl eq_refl) as (_ & _ & _ & C)
    end.
    cbn zeta in C. rewrite app_nil_r in C. exact C.
Qed.

(** X7.  For a body with a string [location] and a secret that is set and
    not empty, the agent is called exactly once, before anything else; its
    prompt is "What is the weather in <location>?", and its dependencies are
    the secret, the unit fahrenheit and the [X-User-Name] and [X-User-Role]
    headers, "Anonymous" and "guest" standing in for a header that is not
    sent; its instructions are built from those dependencies. *)
Theorem valid_request_calls_the_agent_once
        (w : World number) (req : Request number) (body : json number)
        (s k : string) :
  req_json req = Normal body ->
  prop "location" (Some body) = Some (JString s) ->
  WEATHER_API_KEY w = Some k ->
  k <> EmptyString ->
  exists rest,
    snd (handle w req)
    = EGenerate (buildInstructions (request_dependencies k req))
                ("What is the weather in " ++ s ++ "?")
                (request_dependencies k req)
      :: rest
    /\ generate_count (snd (handle w req)) = 1.
Proof.
  intros Eb El Ek Hk.
  assert (Et : truthy (WEATHER_API_KEY w) = Some k)
    by (rewrite Ek; now apply truthy_nonempty).
  destruct (handle_shape w req)
    as [(e & E & _)|[(b & e & Eb' & Hq & _)|(b & s' & k' & cs & Eb' & El' & Ek' & Hh)]].
  - congruence.
  - rewrite Eb in Eb'. inversion Eb'; subst b.
    rewrite (querySchema_accepts body s El) in Hq.
    destruct Hq as [Hq|(_ & Ha & _)]; [discriminate|].
    apply truthy_None in Ha. congruence.
  - rewrite Eb in Eb'. inversion Eb'; subst b.
    rewrite El in El'. inversion El'; subst s'.
    rewrite Et in Ek'. inversion Ek'; subst k'.
    destruct Hh as [[text E]|[e E]]; rewrite E; cbn [snd];
      (eexists; split; [reflexivity|]).
    + match goal with
      | |- generate_count (?g :: _) = 1 =>
          pose proof (count_after_generate g (request_dependencies k req) cs []
                        eq_refl eq_refl eq_refl eq_refl) as (_ & _ & G & _)
      end.
      cbn zeta in G. rewrite app_nil_r in G. exact G.
    + match goal with
      | |- generate_count (?g :: _ ++ [?c])%list = 1 =>
          pose proof (count_after_generate g (request_dependencies k req) cs [c]
                        eq_refl eq_refl eq_refl eq_refl) as (_ & _ & G & _)
      end.
      exact G.
Qed.



(** ** Schemas *)

Lemma z_enum_unit_OK (path : list PathSeg) (v : JsValue number)
      (u : TemperatureUnit) :
  z_enum [("celsius", celsius); ("fahrenheit", fahrenheit)] path v = OK u
  <-> v = Some (JString (unit_text u)).
Proof.
  unfold z_enum. split.
  - destruct v as [[|?|?|s|?|?]|]; try discriminate.
    cbn [enum_lookup].
    destruct (String.eqb "celsius" s) eqn:Ec.
    + apply String.eqb_eq in Ec. subst s. intros E. now inversion E.
    + destruct (String.eqb "fahrenheit" s) eqn:Ef; [|discriminate].
      apply String.eqb_eq in Ef. subst s. intros E. now inversion E.
  - intros ->. now destruct u.
Qed.

(** X10.  [depsSchema] accepts a value exactly when it is an object whose
    [weatherApiKey], [userName] and [userRole] are strings and whose
    [temperatureUnit] is the string "celsius" or "fahrenheit", and its
    output is made of these four; any other unit, a missing property or a
    property of another type is refused. *)
Theorem depsSchema_accepts_exactly
        (v : json number) (d : DependenciesType) :
  parse depsSchema v = Normal d <->
  prop "weatherApiKey" (Some v) = Some (JString (weatherApiKey d))
  /\ prop "temperatureUnit" (Some v)
     = Some (JString (unit_text (temperatureUnit d)))
  /\ prop "userName" (Some v) = Some (JString (userName d))
  /\ prop "userRole" (Some v) = Some (JString (userRole d)).
Proof.
  unfold parse. split.
  - destruct (depsSchema [] (Some v)) as [d'|] eqn:E; [|discriminate].
    intros E'. inversion E'; subst d'. clear E'.
    unfold depsSchema in E. apply z_object_OK in E. destruct E as [_ E].
    apply shape_field_OK in E. destruct E as (g4 & role & E & Erole & ->).
    apply shape_field_OK in E. destruct E as (g3 & name & E & Ename & ->).
    apply shape_field_OK in E. destruct E as (g2 & u & E & Eu & ->).
    apply shape_field_OK in E. destruct E as (g1 & key & E & Ekey & ->).
    inversion E; subst g1. cbn.
    apply z_string_OK in Erole, Ename, Ekey. apply z_enum_unit_OK in Eu.
    auto.
  - intros (Ekey & Eu & Ename & Erole).
    assert (Hobj : exists props, Some v = Some (JObject props)).
    { destruct v; simpl in Ekey; try discriminate. eauto. }
    assert (E : depsSchema [] (Some v) = OK d).
    { unfold depsSchema. apply z_object_OK. split; [exact Hobj|].
      destruct d as [key u name role].
      cbn [weatherApiKey temperatureUnit userName userRole] in *.
      apply shape_field_OK.
      exists (Build_DependenciesType key u name), role.
      split; [|split; [now apply z_string_OK|reflexivity]].
      apply shape_field_OK. exists (Build_DependenciesType key u), name.
      split; [|split; [now apply z_string_OK|reflexivity]].
      apply shape_field_OK. exists (Build_DependenciesType key), u.
      split; [|split; [now apply z_enum_unit_OK|reflexivity]].
      apply shape_field_OK. exists Build_DependenciesType, key.
      split; [reflexivity|]. split; [now apply z_string_OK|reflexivity]. }
    now rewrite E.
Qed.

(** X11.  The schema of the request body and the input schema of the tool
    accept the same values: those with a string [location], which is the
    whole of their output; other properties of the value are dropped, and
    no length is asked of the string. *)
Theorem location_schemas_accept_exactly
        (w : World number) (v : json number) (q : Query.t) :
  (parse querySchema v = Normal q
   <-> prop "location" (Some v) = Some (JString (Query.location q)))
  /\ parse (inputSchema (weatherTool w)) v = parse querySchema v.
Proof. split; [apply querySchema_Normal|reflexivity]. Qed.

Lemma Forall2_map_alike {A B C : Type} (f : A -> C) (g : B -> C)
      (xs : list A) (ys : list B) :
  Forall2 (fun x y => f x = g y) xs ys ->
  forall xs', map f xs' = map f xs -> Forall2 (fun x y => f x = g y) xs' ys.
Proof.
  induction 1 as [|x y xs ys Hx _ IH]; intros [|x' xs'] E;
    try discriminate; constructor.
  - cbn [map] in E. injection E as Ex _. now rewrite Ex.
  - cbn [map] in E. injection E as _ E. now apply IH.
Qed.

Lemma described_alike (items : list (json number))
      (ws : list ProviderData.weather_t) :
  Forall2 described_as items ws ->
  forall items',
    map (fun x => prop "description" (Some x)) items'
    = map (fun x => prop "description" (Some x)) items ->
    Forall2 described_as items' ws.
Proof.
  exact (Forall2_map_alike
           (fun x => prop "description" (Some x))
           (fun w => Some (JString (ProviderData.description w)))
           items ws).
Qed.

(** X12.  [dataSchema] reads nothing but [name], [main.temp],
    [main.humidity] and the [description] of each item of [weather]: a body
    that agrees on these with a body the schema accepts is accepted with
    the same output, whatever else the two bodies and their weather items
    hold. *)
Theorem dataSchema_reads_four_paths
        (raw raw' : json number) (data : ProviderData.t number) :
  parse dataSchema raw = Normal data ->
  raw_name raw' = raw_name raw ->
  raw_temp raw' = raw_temp raw ->
  raw_humidity raw' = raw_humidity raw ->
  weather_descriptions raw' = weather_descriptions raw ->
  parse dataSchema raw' = Normal data.
Proof.
  intros E En Et Eh Ew. apply parse_dataSchema_Normal in E.
  apply parse_dataSchema_Normal. unfold decodes_to in *.
  rewrite En, Et, Eh.
  destruct E as (E1 & E2 & E3 & items & Ei & F).
  repeat split; try assumption.
  unfold weather_descriptions in Ew. rewrite Ei in Ew.
  destruct (prop "weather" (Some raw')) as [[|?|?|?|items'|?]|];
    try discriminate.
  exists items'. split; [reflexivity|].
  injection Ew as Ew. now apply (described_alike items _ F).
Qed.

(** ** [buildInstructions] *)


End Coverage.

(** ** Locations that need no encoding *)





(** ** The further properties at the scenarios *)


Lemma no_location_is_answered :
  (exists text t,
      handle (world (Some "secret") san_francisco (ask_once "Paris"))
             (request (Normal body_no_location))
      = (Normal {| status := 200; body := SuccessBody text |}, t)
      /\ console_count t = 0)
  \/ (exists e t,
        handle (world (Some "secret") san_francisco (ask_once "Paris"))
               (request (Normal body_no_location))
        = (Normal (failure (error_text e)), (t ++ [EConsoleError e])%list)
        /\ console_count t = 0).
Proof.
  exact (read_body_is_always_answered
           (world (Some "secret") san_francisco (ask_once "Paris"))
           (request (Normal body_no_location)) body_no_location eq_refl).
Defined.

Lemma san_francisco_request_calls_the_agent_once :
  exists rest,
    snd (handle (world (Some "secret") san_francisco (ask_once "San Francisco"))
                (request (Normal body_san_francisco)))
    = EGenerate (buildInstructions deps_alice)
                "What is the weather in San Francisco?" deps_alice
      :: rest
    /\ generate_count
         (snd (handle (world (Some "secret") san_francisco
                             (ask_once "San Francisco"))
                      (request (Normal body_san_francisco)))) = 1.
Proof.
  apply (valid_request_calls_the_agent_once
           (world (Some "secret") san_francisco (ask_once "San Francisco"))
           (request (Normal body_san_francisco)) body_san_francisco
           "San Francisco" "secret" eq_refl eq_refl eq_refl).
  discriminate.
Defined.


Lemma answer_in_full_is_read_alike :
  parse dataSchema san_francisco_in_full
  = Normal (ProviderData.mk "San Francisco" (ProviderData.mk_main 72%Z 65%Z)
                            [ProviderData.mk_weather "partly cloudy"]).
Proof.
  exact (dataSchema_reads_four_paths
           san_francisco san_francisco_in_full
           (ProviderData.mk "San Francisco" (ProviderData.mk_main 72%Z 65%Z)
                            [ProviderData.mk_weather "partly cloudy"])
           eq_refl eq_refl eq_refl eq_refl eq_refl).
Defined.
